(** * Timezone converter: query parsing, zone resolution, conversion, targets

    A shallow embedding of [src/timezone-data.ts] and [src/timezone-utils.ts],
    and of [formatIanaId] of [src/convert-time.tsx], with the properties their
    specification states about them and further properties of the code.

    Modelling conventions.
    - A JavaScript string whose UTF-16 code units all lie below 256 is a
      [string], one character per code unit; strings with a code unit from
      256 on are outside the model.  On the modelled strings the white-space
      class, the case mappings and the regular expression classes are those
      of JavaScript.  Two upper-case forms leave the modelled strings (of
      U+00B5 and of U+00FF): [JS.toUpperCase] has no result there, and the
      resolver's title-cased guess, which is the only place that takes an
      upper-case form, is then no identifier of the host (the host knows
      identifiers of modelled strings only).
    - A number is a [Z]; every number the code handles is an integer.
    - An object literal used as a dictionary is a [gmap] of its own
      properties, looked up the way JavaScript does: a key the literal does
      not own is looked up on [Object.prototype] next.
    - The host (the [Intl] and [Date] built-ins) is a parameter: which zone
      identifiers it accepts, the local zone, the clock, the zone offsets.
    - A thrown exception is the [Throw] outcome of a small error monad. *)

From Stdlib Require Import ZArith Lia List String Ascii Bool.
From stdpp Require Import base decidable option countable gmap strings list fin_maps.

Open Scope string_scope.
Open Scope Z_scope.

(** ** Outcomes: a returned value or a thrown exception *)

Inductive outcome (A : Type) : Type :=
| Ret (a : A)
| Throw (e : string).
Arguments Ret {A} a.
Arguments Throw {A} e.

Definition bind {A B : Type} (m : outcome A) (k : A -> outcome B) : outcome B :=
  match m with
  | Ret a => k a
  | Throw e => Throw e
  end.

Notation "'let!' x ':=' m 'in' k" := (bind m (fun x => k))
  (at level 10, x name, m at level 100, k at level 200).

(** ** JavaScript strings *)

Module JS.

Definition code (c : ascii) : Z := Z.of_nat (nat_of_ascii c).

Definition chr (n : Z) : ascii := ascii_of_nat (Z.to_nat n).

(** The double-quote character, code unit 34. *)
Definition dquote : string := String (chr 34) EmptyString.

(** [\d] *)
Definition isDigit (c : ascii) : bool := (48 <=? code c) && (code c <=? 57).

Definition isUpper (c : ascii) : bool := (65 <=? code c) && (code c <=? 90).

Definition isLower (c : ascii) : bool := (97 <=? code c) && (code c <=? 122).

(** [\w]: letters, digits and the underscore. *)
Definition isWord (c : ascii) : bool :=
  isDigit c || isUpper c || isLower c || (code c =? 95).

(** [\s], and the characters [trim] strips: TAB, LF, VT, FF, CR, SPACE and
    the no-break space U+00A0. *)
Definition isSpace (c : ascii) : bool :=
  ((9 <=? code c) && (code c <=? 13)) || (code c =? 32) || (code c =? 160).

(** The upper-case letters U+00C0 to U+00DE; U+00D7 is the multiplication
    sign. *)
Definition isUpperLatin1 (c : ascii) : bool :=
  (192 <=? code c) && (code c <=? 222) && negb (code c =? 215).

(** The lower-case letters U+00E0 to U+00FE; U+00F7 is the division sign. *)
Definition isLowerLatin1 (c : ascii) : bool :=
  (224 <=? code c) && (code c <=? 254) && negb (code c =? 247).

(** [toLowerCase] on one code unit. *)
Definition lowerChar (c : ascii) : ascii :=
  if isUpper c || isUpperLatin1 c then chr (code c + 32) else c.

(** [toUpperCase] on a code unit whose upper-case form is one code unit
    below 256. *)
Definition upperChar (c : ascii) : ascii :=
  if isLower c || isLowerLatin1 c then chr (code c - 32) else c.

(** [toUpperCase] on one code unit: U+00DF becomes SS; the upper-case
    forms of U+00B5 (U+039C) and of U+00FF (U+0178) are no modelled
    strings. *)
Definition upperOf (c : ascii) : option string :=
  if (code c =? 181) || (code c =? 255) then None
  else if code c =? 223 then Some "SS"%string
  else Some (String (upperChar c) EmptyString).

Fixpoint mapChars (f : ascii -> ascii) (s : string) : string :=
  match s with
  | EmptyString => EmptyString
  | String c r => String (f c) (mapChars f r)
  end.

Definition toLowerCase (s : string) : string := mapChars lowerChar s.

Fixpoint toUpperCase (s : string) : option string :=
  match s with
  | EmptyString => Some EmptyString
  | String c r =>
      match upperOf c, toUpperCase r with
      | Some u, Some r' => Some (u ++ r')%string
      | _, _ => None
      end
  end.

(** A string is falsy exactly when it is empty. *)
Definition truthy (s : string) : bool :=
  match s with
  | EmptyString => false
  | String _ _ => true
  end.

Fixpoint trimStart (s : string) : string :=
  match s with
  | EmptyString => EmptyString
  | String c r => if isSpace c then trimStart r else s
  end.

(** [trimEnd] keeps a character when it is not a space or when something
    is left after it. *)
Fixpoint trimEnd (s : string) : string :=
  match s with
  | EmptyString => EmptyString
  | String c r =>
      match trimEnd r with
      | EmptyString => if isSpace c then EmptyString else String c EmptyString
      | r' => String c r'
      end
  end.

Definition trim (s : string) : string := trimEnd (trimStart s).

(** [s.slice(n)] for [0 <= n]. *)
Fixpoint sliceFrom (n : nat) (s : string) : string :=
  match n, s with
  | O, _ => s
  | S n', String _ r => sliceFrom n' r
  | S _, EmptyString => EmptyString
  end.

(** [s.slice(0, n)] for [0 <= n]. *)
Fixpoint sliceTo (n : nat) (s : string) : string :=
  match n, s with
  | O, _ => EmptyString
  | S n', String c r => String c (sliceTo n' r)
  | S _, EmptyString => EmptyString
  end.

(** [s.charAt(0)]: the first character as a string, or the empty string. *)
Definition charAt0 (s : string) : string :=
  match s with
  | EmptyString => EmptyString
  | String c _ => String c EmptyString
  end.

(** [s.split(sep)] for a one-character separator: never the empty list. *)
Fixpoint split (sep : ascii) (s : string) : list string :=
  match s with
  | EmptyString => [EmptyString]
  | String c r =>
      if Ascii.eqb c sep then EmptyString :: split sep r
      else match split sep r with
           | [] => [String c EmptyString]
           | w :: ws => String c w :: ws
           end
  end.

(** [parts.join(sep)] *)
Fixpoint join (sep : string) (parts : list string) : string :=
  match parts with
  | [] => EmptyString
  | [w] => w
  | w :: ws => w ++ sep ++ join sep ws
  end.

(** The value of the leading decimal digits of [s], continuing from [acc]. *)
Fixpoint parseDigits (acc : Z) (s : string) : Z :=
  match s with
  | EmptyString => acc
  | String c r => if isDigit c then parseDigits (10 * acc + (code c - 48)) r else acc
  end.

(** [parseInt(s, 10)] on a string that starts with a decimal digit. *)
Definition parseInt (s : string) : Z := parseDigits 0 s.

Definition digitChar (d : Z) : ascii := chr (48 + d).

(** The decimal digits of a natural number below [10 ^ fuel]. *)
Fixpoint digits (fuel : nat) (n : Z) (acc : string) : string :=
  match fuel with
  | O => acc
  | S f =>
      let acc' := String (digitChar (n mod 10)) acc in
      if n / 10 =? 0 then acc' else digits f (n / 10) acc'
  end.

(** [String(n)] for an integer [n]. *)
Definition ofNumber (n : Z) : string :=
  if n <? 0
  then String "-" (digits (S (Z.to_nat (Z.log2 (- n)))) (- n) EmptyString)
  else digits (S (Z.to_nat (Z.log2 n))) n EmptyString.

(** [s.padStart(2, "0")] *)
Definition padStart2 (s : string) : string :=
  match s with
  | EmptyString => "00"
  | String c EmptyString => String "0" s
  | _ => s
  end.

End JS.

(** ** Values and object lookup *)

(** The values that reach the zone fields: a string, or the value of the
    property [k] of [Object.prototype] (a built-in function or, for
    [__proto__], [Object.prototype] itself).  Two such built-ins are the
    same object exactly when they are the same property. *)
Inductive jsval : Type :=
| VStr (s : string)
| VProto (k : string).

Global Instance jsval_eq_dec : EqDecision jsval.
Proof. solve_decision. Defined.

Global Instance jsval_countable : Countable jsval.
Proof.
  refine (inj_countable'
            (fun v => match v with VStr s => inl s | VProto k => inr k end)
            (fun x => match x with inl s => VStr s | inr k => VProto k end) _).
  intros []; reflexivity.
Defined.

(** [if (v)]: a string is truthy when it is not empty, an object always. *)
Definition truthyVal (v : jsval) : bool :=
  match v with
  | VStr s => JS.truthy s
  | VProto _ => true
  end.

(** The property names of [Object.prototype]. *)
Definition Object_prototype_keys : list string :=
  [ "constructor"; "__defineGetter__"; "__defineSetter__"; "hasOwnProperty";
    "__lookupGetter__"; "__lookupSetter__"; "isPrototypeOf";
    "propertyIsEnumerable"; "toString"; "valueOf"; "__proto__";
    "toLocaleString" ].

(** The [length] property of [Object.prototype[k]]: the arity of the built-in
    function; [Object.prototype] itself has none. *)
Definition proto_length (k : string) : option Z :=
  if String.eqb k "__proto__" then None
  else if existsb (String.eqb k) ["toString"; "valueOf"; "toLocaleString"] then Some 0
  else if existsb (String.eqb k) ["__defineGetter__"; "__defineSetter__"] then Some 2
  else Some 1.

(** The result of [obj[k]] on an object literal. *)
Inductive property (A : Type) : Type :=
| Own (a : A)
| Inherited (k : string)
| Undefined.
Arguments Own {A} a.
Arguments Inherited {A} k.
Arguments Undefined {A}.

Definition obj_get {A : Type} (obj : gmap string A) (k : string) : property A :=
  match obj !! k with
  | Some a => Own a
  | None => if existsb (String.eqb k) Object_prototype_keys then Inherited k else Undefined
  end.

(** ** Static timezone maps ([src/timezone-data.ts]) *)

Definition ABBREVIATION_MAP : gmap string (list string) :=
  list_to_map
  [ ("utc", ["UTC"]); ("gmt", ["Etc/GMT"]);
    ("est", ["America/New_York"]); ("edt", ["America/New_York"]);
    ("cst", ["America/Chicago"; "Asia/Shanghai"]); ("cdt", ["America/Chicago"]);
    ("mst", ["America/Denver"]); ("mdt", ["America/Denver"]);
    ("pst", ["America/Los_Angeles"]); ("pdt", ["America/Los_Angeles"]);
    ("akst", ["America/Anchorage"]); ("akdt", ["America/Anchorage"]);
    ("hst", ["Pacific/Honolulu"]);
    ("ast", ["America/Halifax"; "Asia/Riyadh"]);
    ("nst", ["America/St_Johns"]); ("ndt", ["America/St_Johns"]);
    ("cet", ["Europe/Berlin"]); ("cest", ["Europe/Berlin"]);
    ("eet", ["Europe/Bucharest"]); ("eest", ["Europe/Bucharest"]);
    ("wet", ["Europe/Lisbon"]); ("west", ["Europe/Lisbon"]);
    ("gmt_plus_1", ["Europe/London"]);
    ("bst", ["Europe/London"; "Asia/Dhaka"]);
    ("ist", ["Asia/Kolkata"; "Asia/Jerusalem"; "Europe/Dublin"]);
    ("msk", ["Europe/Moscow"]);
    ("jst", ["Asia/Tokyo"]); ("kst", ["Asia/Seoul"]);
    ("cst_china", ["Asia/Shanghai"]); ("hkt", ["Asia/Hong_Kong"]);
    ("sgt", ["Asia/Singapore"]); ("myt", ["Asia/Kuala_Lumpur"]);
    ("pht", ["Asia/Manila"]); ("wib", ["Asia/Jakarta"]);
    ("wit", ["Asia/Jayapura"]); ("wita", ["Asia/Makassar"]);
    ("ict", ["Asia/Bangkok"]); ("mmt", ["Asia/Yangon"]);
    ("npt", ["Asia/Kathmandu"]); ("pkt", ["Asia/Karachi"]);
    ("aft", ["Asia/Kabul"]); ("irst", ["Asia/Tehran"]);
    ("gst", ["Asia/Dubai"]); ("aqtt", ["Asia/Aqtau"]);
    ("aest", ["Australia/Sydney"]); ("aedt", ["Australia/Sydney"]);
    ("acst", ["Australia/Adelaide"]); ("acdt", ["Australia/Adelaide"]);
    ("awst", ["Australia/Perth"]);
    ("nzst", ["Pacific/Auckland"]); ("nzdt", ["Pacific/Auckland"]);
    ("fjt", ["Pacific/Fiji"]);
    ("brt", ["America/Sao_Paulo"]); ("brst", ["America/Sao_Paulo"]);
    ("art", ["America/Argentina/Buenos_Aires"]);
    ("clt", ["America/Santiago"]); ("clst", ["America/Santiago"]);
    ("pet", ["America/Lima"]); ("cot", ["America/Bogota"]);
    ("vet", ["America/Caracas"]);
    ("cat", ["Africa/Harare"]); ("eat", ["Africa/Nairobi"]);
    ("wat", ["Africa/Lagos"]); ("sast", ["Africa/Johannesburg"]) ].

Definition CITY_MAP : gmap string string :=
  list_to_map
  [ ("new york", "America/New_York"); ("chicago", "America/Chicago");
    ("denver", "America/Denver"); ("los angeles", "America/Los_Angeles");
    ("phoenix", "America/Phoenix"); ("anchorage", "America/Anchorage");
    ("honolulu", "Pacific/Honolulu"); ("toronto", "America/Toronto");
    ("vancouver", "America/Vancouver"); ("montreal", "America/Toronto");
    ("halifax", "America/Halifax"); ("st johns", "America/St_Johns");
    ("mexico city", "America/Mexico_City");
    ("london", "Europe/London"); ("paris", "Europe/Paris");
    ("berlin", "Europe/Berlin"); ("amsterdam", "Europe/Amsterdam");
    ("brussels", "Europe/Brussels"); ("madrid", "Europe/Madrid");
    ("rome", "Europe/Rome"); ("zurich", "Europe/Zurich");
    ("vienna", "Europe/Vienna"); ("prague", "Europe/Prague");
    ("warsaw", "Europe/Warsaw"); ("budapest", "Europe/Budapest");
    ("bucharest", "Europe/Bucharest"); ("athens", "Europe/Athens");
    ("istanbul", "Europe/Istanbul"); ("moscow", "Europe/Moscow");
    ("helsinki", "Europe/Helsinki"); ("stockholm", "Europe/Stockholm");
    ("oslo", "Europe/Oslo"); ("copenhagen", "Europe/Copenhagen");
    ("dublin", "Europe/Dublin"); ("lisbon", "Europe/Lisbon");
    ("kyiv", "Europe/Kyiv");
    ("tokyo", "Asia/Tokyo"); ("osaka", "Asia/Tokyo"); ("seoul", "Asia/Seoul");
    ("beijing", "Asia/Shanghai"); ("shanghai", "Asia/Shanghai");
    ("hong kong", "Asia/Hong_Kong"); ("taipei", "Asia/Taipei");
    ("singapore", "Asia/Singapore"); ("kuala lumpur", "Asia/Kuala_Lumpur");
    ("bangkok", "Asia/Bangkok"); ("jakarta", "Asia/Jakarta");
    ("manila", "Asia/Manila"); ("delhi", "Asia/Kolkata");
    ("mumbai", "Asia/Kolkata"); ("kolkata", "Asia/Kolkata");
    ("chennai", "Asia/Kolkata"); ("bangalore", "Asia/Kolkata");
    ("karachi", "Asia/Karachi"); ("lahore", "Asia/Karachi");
    ("dhaka", "Asia/Dhaka"); ("kathmandu", "Asia/Kathmandu");
    ("yangon", "Asia/Yangon"); ("tehran", "Asia/Tehran");
    ("dubai", "Asia/Dubai"); ("abu dhabi", "Asia/Dubai");
    ("riyadh", "Asia/Riyadh"); ("doha", "Asia/Qatar");
    ("jerusalem", "Asia/Jerusalem"); ("tel aviv", "Asia/Jerusalem");
    ("kabul", "Asia/Kabul"); ("colombo", "Asia/Colombo");
    ("sydney", "Australia/Sydney"); ("melbourne", "Australia/Melbourne");
    ("brisbane", "Australia/Brisbane"); ("perth", "Australia/Perth");
    ("adelaide", "Australia/Adelaide"); ("auckland", "Pacific/Auckland");
    ("wellington", "Pacific/Auckland"); ("fiji", "Pacific/Fiji");
    ("sao paulo", "America/Sao_Paulo"); ("rio de janeiro", "America/Sao_Paulo");
    ("buenos aires", "America/Argentina/Buenos_Aires");
    ("santiago", "America/Santiago"); ("lima", "America/Lima");
    ("bogota", "America/Bogota"); ("caracas", "America/Caracas");
    ("cairo", "Africa/Cairo"); ("lagos", "Africa/Lagos");
    ("nairobi", "Africa/Nairobi"); ("johannesburg", "Africa/Johannesburg");
    ("cape town", "Africa/Johannesburg"); ("casablanca", "Africa/Casablanca");
    ("accra", "Africa/Accra"); ("addis ababa", "Africa/Addis_Ababa") ].

Definition SHORT_FORM_MAP : gmap string string :=
  list_to_map
  [ ("ny", "America/New_York"); ("nyc", "America/New_York");
    ("la", "America/Los_Angeles"); ("sf", "America/Los_Angeles");
    ("chi", "America/Chicago"); ("kl", "Asia/Kuala_Lumpur");
    ("hk", "Asia/Hong_Kong"); ("sg", "Asia/Singapore") ].

Definition TIMEZONE_FULL_NAMES : gmap string string :=
  list_to_map
  [ ("America/New_York", "Eastern Time"); ("America/Chicago", "Central Time");
    ("America/Denver", "Mountain Time"); ("America/Los_Angeles", "Pacific Time");
    ("Asia/Shanghai", "China Standard Time"); ("Asia/Kolkata", "India Standard Time");
    ("Asia/Jerusalem", "Israel Standard Time"); ("Europe/Dublin", "Irish Standard Time");
    ("Europe/London", "British Summer Time"); ("Asia/Dhaka", "Bangladesh Standard Time");
    ("America/Halifax", "Atlantic Time"); ("Asia/Riyadh", "Arabia Standard Time") ].

(** ** The time and separator patterns ([src/timezone-utils.ts]) *)

(** The result of a successful [match]: the matched text and the three
    capture groups; a group that took no part in the match is [None]. *)
Record TimeMatch : Type := {
  m0 : string;
  m1 : string;
  m2 : option string;
  m3 : option string
}.

Definition str2 (a b : ascii) : string := String a (String b EmptyString).

(** [TIME_RE = /^(\d{1,2})(?:[:.](\d{2}))?\s*(am|pm)?/i].  Every part after
    the first digit is optional and nothing follows the last part, so the
    greedy choice at each part is the match the backtracking matcher
    returns. *)
Definition match_TIME_RE (s : string) : option TimeMatch :=
  match s with
  | EmptyString => None
  | String c1 r1 =>
      if JS.isDigit c1 then
        let '(g1, r) :=
          match r1 with
          | String c2 r2 =>
              if JS.isDigit c2 then (str2 c1 c2, r2) else (String c1 EmptyString, r1)
          | EmptyString => (String c1 EmptyString, r1)
          end in
        let '(g2, r) :=
          match r with
          | String p (String d1 (String d2 r3)) =>
              if (Ascii.eqb p ":" || Ascii.eqb p ".") && JS.isDigit d1 && JS.isDigit d2
              then (Some (str2 d1 d2), r3) else (None, r)
          | _ => (None, r)
          end in
        let r := JS.trimStart r in
        let '(g3, r) :=
          match r with
          | String a (String m r4) =>
              if (Ascii.eqb (JS.lowerChar a) "a" || Ascii.eqb (JS.lowerChar a) "p")
                 && Ascii.eqb (JS.lowerChar m) "m"
              then (Some (str2 a m), r4) else (None, r)
          | _ => (None, r)
          end in
        Some {| m0 := JS.sliceTo (String.length s - String.length r) s;
                m1 := g1; m2 := g2; m3 := g3 |}
      else None
  end.

(** [TO_RE = /\bto\b/i]: the index of the leftmost [to], in either case,
    that neither follows nor precedes a word character.  [prevWord] tells
    whether the character before position [i] is a word character. *)
Fixpoint search_TO_RE_from (prevWord : bool) (i : nat) (s : string) : option nat :=
  match s with
  | EmptyString => None
  | String c r =>
      let here :=
        negb prevWord && Ascii.eqb (JS.lowerChar c) "t" &&
        match r with
        | String o r' =>
            Ascii.eqb (JS.lowerChar o) "o" &&
            match r' with
            | EmptyString => true
            | String x _ => negb (JS.isWord x)
            end
        | EmptyString => false
        end in
      if here then Some i else search_TO_RE_from (JS.isWord c) (S i) r
  end.

Definition search_TO_RE (s : string) : option nat := search_TO_RE_from false 0 s.

(** ** Types *)

Record ParsedQuery : Type := {
  timeStr : string;
  hours : Z;
  minutes : Z;
  sourceTimezone : jsval;
  sourceLabel : string;
  targetTimezone : option jsval;
  error : option string
}.

Record ConvertedTime : Type := {
  ct_ianaId : string;
  ct_abbreviation : string;
  ct_formattedTime : string;
  ct_utcOffset : string;
  ct_dayOffset : Z;
  ct_isLocal : bool;
  ct_label : option string;
  ct_hours : Z;
  ct_minutes : Z
}.

Record DateParts : Type := {
  year : Z;
  month : Z;
  day : Z;
  hour : Z;
  minute : Z
}.

Record Target : Type := {
  ianaId : jsval;
  label : option string
}.

Global Instance Target_eq_dec : EqDecision Target.
Proof. solve_decision. Defined.

(** The closure state of [getTargetTimezones]: the [seen] set and the
    [targets] array. *)
Record TargetState : Type := {
  seen : gset jsval;
  targets : list Target
}.

(** ** The calendar of [Date] *)

Definition msPerMinute : Z := 60000.
Definition msPerHour : Z := 3600000.
Definition msPerDay : Z := 86400000.

(** Year, month (1 to 12) and day of the month of a day number counted from
    1970-01-01, in the proleptic Gregorian calendar. *)
Definition civil_from_days (z : Z) : Z * Z * Z :=
  let z := z + 719468 in
  let era := z / 146097 in
  let doe := z - era * 146097 in
  let yoe := (doe - doe / 1460 + doe / 36524 - doe / 146096) / 365 in
  let doy := doe - (365 * yoe + yoe / 4 - yoe / 100) in
  let mp := (5 * doy + 2) / 153 in
  let d := doy - (153 * mp + 2) / 5 + 1 in
  let m := if mp <? 10 then mp + 3 else mp - 9 in
  let y := yoe + era * 400 in
  (if m <=? 2 then y + 1 else y, m, d).

(** The day number of a date, months counted from 1. *)
Definition days_from_civil (y m d : Z) : Z :=
  let y := if m <=? 2 then y - 1 else y in
  let era := y / 400 in
  let yoe := y - era * 400 in
  let doy := (153 * (if 2 <? m then m - 3 else m + 9) + 2) / 5 + d - 1 in
  let doe := yoe * 365 + yoe / 4 - yoe / 100 + doy in
  era * 146097 + doe - 719468.

(** [Date.UTC(year, monthIndex, day, hours, minutes, 0, 0)], in milliseconds;
    [monthIndex] counts from 0. *)
Definition Date_UTC (y monthIndex d h mi : Z) : Z :=
  days_from_civil y (monthIndex + 1) d * msPerDay + h * msPerHour + mi * msPerMinute.

Definition getUTCFullYear (t : Z) : Z := fst (fst (civil_from_days (t / msPerDay))).
Definition getUTCMonth (t : Z) : Z := snd (fst (civil_from_days (t / msPerDay))) - 1.
Definition getUTCDate (t : Z) : Z := snd (civil_from_days (t / msPerDay)).

(** ** The program, over a host *)

Section Host.

(** [validTimeZone tz]: the host constructs
    [Intl.DateTimeFormat(_, { timeZone: tz })] without a [RangeError]. *)
Variable validTimeZone : string -> bool.

(** [Intl.DateTimeFormat().resolvedOptions().timeZone] *)
Variable localTimeZone : string.

(** [new Date().getTime()], in milliseconds. *)
Variable now : Z.

(** The offset from UTC, in minutes, of a zone at an instant. *)
Variable zoneOffset : string -> Z -> Z.

(** The [timeZoneName] part ([short]) of a zone at an instant; empty when the
    formatter yields none. *)
Variable zoneName : string -> Z -> string.

(** The clock text of an instant in a zone, in the system locale. *)
Variable localeTime : string -> Z -> string.

Definition Intl_DateTimeFormat (timeZone : string) : outcome unit :=
  if validTimeZone timeZone then Ret tt else Throw "RangeError".

Definition isValidIana (tz : string) : bool :=
  match Intl_DateTimeFormat tz with
  | Ret _ => true
  | Throw _ => false
  end.

(** *** Timezone resolution *)

(** [w.charAt(0).toUpperCase() + w.slice(1).toLowerCase()] *)
Definition capitalize (w : string) : option string :=
  match JS.toUpperCase (JS.charAt0 w) with
  | Some u => Some (u ++ JS.toLowerCase (JS.sliceFrom 1 w))
  | None => None
  end.

(** The title-cased guess; [None] when an upper-case form in it is no
    modelled string. *)
Definition ianaGuessOf (trimmed : string) : option string :=
  option_map (JS.join "/")
    (mapM (fun part => option_map (JS.join "_") (mapM capitalize (JS.split "_" part)))
          (JS.split "/" trimmed)).

Definition resolveTimezone (input : string) : outcome (list jsval) :=
  let trimmed := JS.trim input in
  if negb (JS.truthy trimmed) then Ret [] else
  (* 1. Exact IANA match *)
  if isValidIana trimmed then Ret [VStr trimmed] else
  let lower := JS.toLowerCase trimmed in
  (* 4. City/region name *)
  let cityStage :=
    match obj_get CITY_MAP lower with
    | Own zone => if JS.truthy zone then Ret [VStr zone] else Ret []
    | Inherited k => Ret [VProto k]
    | Undefined => Ret []
    end in
  (* 3. Abbreviation lookup; the spread throws on a value that is no array *)
  let abbreviationStage :=
    match obj_get ABBREVIATION_MAP lower with
    | Own zones => Ret (map VStr zones)
    | Inherited _ => Throw "TypeError: not iterable"
    | Undefined => cityStage
    end in
  (* 2. Short-form aliases *)
  let shortFormStage :=
    match obj_get SHORT_FORM_MAP lower with
    | Own zone => if JS.truthy zone then Ret [VStr zone] else abbreviationStage
    | Inherited k => Ret [VProto k]
    | Undefined => abbreviationStage
    end in
  (* the guess with common casing; a guess that is no modelled string
     differs from [trimmed] and is no identifier of the host *)
  match ianaGuessOf trimmed with
  | Some ianaGuess =>
      if negb (String.eqb ianaGuess trimmed) && isValidIana ianaGuess
      then Ret [VStr ianaGuess] else shortFormStage
  | None => shortFormStage
  end.

(** [resolveTimezone] applied to a value: a value that is not a string has
    no [trim] method. *)
Definition resolveTimezoneVal (input : jsval) : outcome (list jsval) :=
  match input with
  | VStr s => resolveTimezone s
  | VProto _ => Throw "TypeError: input.trim is not a function"
  end.

Definition getDisambiguationLabel (ianaId : string) (sourceLabel : string)
  : option jsval :=
  let lower := JS.toLowerCase sourceLabel in
  let fullName :=
    match obj_get TIMEZONE_FULL_NAMES ianaId with
    | Own name => if JS.truthy name then VStr name else VStr ianaId
    | Inherited k => VProto k
    | Undefined => VStr ianaId
    end in
  match obj_get ABBREVIATION_MAP lower with
  | Undefined => None
  | Own matches => if Z.of_nat (length matches) <=? 1 then None else Some fullName
  | Inherited k =>
      match proto_length k with
      | Some n => if n <=? 1 then None else Some fullName
      | None => Some fullName
      end
  end.

(** *** Query parsing *)

Definition failed (timeStr : string) (hours minutes : Z)
    (sourceTimezone : jsval) (sourceLabel : string) (error : string) : ParsedQuery :=
  {| timeStr := timeStr; hours := hours; minutes := minutes;
     sourceTimezone := sourceTimezone; sourceLabel := sourceLabel;
     targetTimezone := None; error := Some error |}.

Definition parseQuery (query : string) : outcome ParsedQuery :=
  let trimmed := JS.trim query in
  if negb (JS.truthy trimmed) then
    Ret (failed "" 0 0 (VStr "") ""
           "Empty query. Try something like: 7:22 CET or 7:22pm PST to CET")
  else
  match match_TIME_RE trimmed with
  | None =>
      Ret (failed "" 0 0 (VStr "") ""
             "Invalid time format. Use HH, HH:MM, or HH.MM, e.g., 11 CET, 7:22, or 7.22pm")
  | Some timeMatch =>
      let hours := JS.parseInt (m1 timeMatch) in
      let minutes :=
        match m2 timeMatch with Some mm => JS.parseInt mm | None => 0 end in
      let ampm := option_map JS.toLowerCase (m3 timeMatch) in
      let checked : Z + ParsedQuery :=
        match ampm with
        | Some ap =>
            if (hours <? 1) || (12 <? hours) then
              inr (failed (m0 timeMatch) hours minutes (VStr "") ""
                     "Invalid time: hour must be 1-12 when using AM/PM")
            else
              let hours := if String.eqb ap "pm" && negb (hours =? 12)
                           then hours + 12 else hours in
              let hours := if String.eqb ap "am" && (hours =? 12)
                           then 0 else hours in
              inl hours
        | None =>
            if 23 <? hours then
              inr (failed (m0 timeMatch) hours minutes (VStr "") ""
                     "Invalid time: hour must be 0-23")
            else inl hours
        end in
      match checked with
      | inr failure => Ret failure
      | inl hours =>
          if 59 <? minutes then
            Ret (failed (m0 timeMatch) hours minutes (VStr "") ""
                   "Invalid time: minutes must be 0-59")
          else
          let timeStr := JS.trim (m0 timeMatch) in
          let rest := JS.trim (JS.sliceFrom (String.length (m0 timeMatch)) trimmed) in
          let '(sourcePart, targetPart) :=
            match search_TO_RE rest with
            | Some index =>
                (JS.trim (JS.sliceTo index rest),
                 Some (JS.trim (JS.sliceFrom (index + 2) rest)))
            | None => (rest, None)
            end in
          if negb (JS.truthy sourcePart) then
            Ret (failed timeStr hours minutes (VStr "") ""
                   "Missing source timezone. Try: 7:22 CET")
          else
          let! sourceResolved := resolveTimezone sourcePart in
          match sourceResolved with
          | [] =>
              Ret (failed timeStr hours minutes (VStr "") sourcePart
                     ("Unknown timezone: " ++ JS.dquote ++ sourcePart ++ JS.dquote
                      ++ ". Try CET, Berlin, or Europe/Berlin"))
          | sourceTimezone :: _ =>
              let finish (targetTimezone : option jsval) :=
                Ret {| timeStr := timeStr; hours := hours; minutes := minutes;
                       sourceTimezone := sourceTimezone; sourceLabel := sourcePart;
                       targetTimezone := targetTimezone; error := None |} in
              match targetPart with
              | Some tp =>
                  if JS.truthy tp then
                    let! targetResolved := resolveTimezone tp in
                    match targetResolved with
                    | [] =>
                        Ret (failed timeStr hours minutes sourceTimezone sourcePart
                               ("Unknown target timezone: " ++ JS.dquote ++ tp ++ JS.dquote
                                ++ ". Try CET, Berlin, or Europe/Berlin"))
                    | targetTimezone :: _ => finish (Some targetTimezone)
                    end
                  else finish None
              | None => finish None
              end
          end
      end
  end.

(** *** Time conversion *)

(** The calendar and clock fields of an instant in a zone, as
    [Intl.DateTimeFormat("en-US", { timeZone, ..., hour12: false })]
    renders them; the constructor throws on a zone the host rejects. *)
Definition getDateParts (date : Z) (timeZone : string) : outcome DateParts :=
  let! _ := Intl_DateTimeFormat timeZone in
  let wall := date + zoneOffset timeZone date * msPerMinute in
  let '(y, m, d) := civil_from_days (wall / msPerDay) in
  let inDay := wall mod msPerDay in
  Ret {| year := y; month := m; day := d;
         hour := (inDay / msPerHour) mod 24;
         minute := (inDay / msPerMinute) mod 60 |}.

Definition getUtcOffsetMinutes (ianaId : string) (date : Z) : outcome Z :=
  let! utcParts := getDateParts date "UTC" in
  let! tzParts := getDateParts date ianaId in
  let utcMinutes :=
    year utcParts * 525960 + month utcParts * 43800 + day utcParts * 1440
    + hour utcParts * 60 + minute utcParts in
  let tzMinutes :=
    year tzParts * 525960 + month tzParts * 43800 + day tzParts * 1440
    + hour tzParts * 60 + minute tzParts in
  Ret (tzMinutes - utcMinutes).

Definition formatUtcOffset (offsetMinutes : Z) : string :=
  let sign := if 0 <=? offsetMinutes then "+" else "-" in
  let abs := Z.abs offsetMinutes in
  let h := abs / 60 in
  let m := abs mod 60 in
  sign ++ JS.padStart2 (JS.ofNumber h) ++ ":" ++ JS.padStart2 (JS.ofNumber m).

Definition getAbbreviation (date : Z) (ianaId : string) : outcome string :=
  let! _ := Intl_DateTimeFormat ianaId in
  let name := zoneName ianaId date in
  Ret (if JS.truthy name then name else ianaId).

Definition formatTimeInTz (date : Z) (ianaId : string) : outcome string :=
  let! _ := Intl_DateTimeFormat ianaId in
  Ret (localeTime ianaId date).

Definition formatTime (hours minutes : Z) : string :=
  JS.ofNumber hours ++ ":" ++ JS.padStart2 (JS.ofNumber minutes).

Definition convertTime (hours minutes : Z) (sourceIana targetIana : string)
    (disambiguationLabel : option string) : outcome ConvertedTime :=
  let localIana := localTimeZone in
  let refDate :=
    Date_UTC (getUTCFullYear now) (getUTCMonth now) (getUTCDate now) hours minutes in
  let! sourceOffset := getUtcOffsetMinutes sourceIana refDate in
  let actualUtcDate := refDate - sourceOffset * 60000 in
  let! targetOffset := getUtcOffsetMinutes targetIana actualUtcDate in
  let! sourceParts := getDateParts actualUtcDate sourceIana in
  let! targetParts := getDateParts actualUtcDate targetIana in
  let dayOffset := day targetParts - day sourceParts in
  let dayOffset := if 15 <? dayOffset then dayOffset - 30 else dayOffset in
  let dayOffset := if dayOffset <? -15 then dayOffset + 30 else dayOffset in
  let! abbreviation := getAbbreviation actualUtcDate targetIana in
  let! formattedTime := formatTimeInTz actualUtcDate targetIana in
  Ret {| ct_ianaId := targetIana;
         ct_abbreviation := abbreviation;
         ct_formattedTime := formattedTime;
         ct_utcOffset := formatUtcOffset targetOffset;
         ct_dayOffset := dayOffset;
         ct_isLocal := String.eqb targetIana localIana;
         ct_label := disambiguationLabel;
         ct_hours := hour targetParts;
         ct_minutes := minute targetParts |}.

(** *** Target timezone assembly *)

(** The inner function [add]: a zone already seen is skipped. *)
Definition add (st : TargetState) (id : jsval) (lbl : option string) : TargetState :=
  if decide (id ∈ seen st) then st
  else {| seen := {[ id ]} ∪ seen st;
          targets := targets st ++ [ {| ianaId := id; label := lbl |} ] |}.

Definition addAll (st : TargetState) (zones : list jsval) : TargetState :=
  fold_left (fun st tz => add st tz None) zones st.

(** The loop over the favorite entries. *)
Fixpoint addFavorites (st : TargetState) (entries : list string) : outcome TargetState :=
  match entries with
  | [] => Ret st
  | entry :: more =>
      if negb (JS.truthy entry) then addFavorites st more
      else
        let! resolved := resolveTimezone entry in
        addFavorites (addAll st resolved) more
  end.

Definition getTargetTimezones (parsed : ParsedQuery) (favoriteSetting : string)
  : outcome (list Target) :=
  let localIana := localTimeZone in
  let st := {| seen := ∅; targets := [] |} in
  let st := add st (VStr localIana) None in
  let! st :=
    match targetTimezone parsed with
    | Some target =>
        if truthyVal target then
          let! targetResolved := resolveTimezoneVal target in
          match targetResolved with
          | [] => Ret (add st target None)
          | _ => Ret (addAll st targetResolved)
          end
        else Ret st
    | None => Ret st
    end in
  let! st :=
    if JS.truthy (JS.trim favoriteSetting) then
      addFavorites st (map JS.trim (JS.split "," favoriteSetting))
    else Ret st in
  Ret (targets st).



(** *** The resolution precedence as the specification words it *)

(** Title-casing: the first character of the input and each character after
    a slash or an underscore in upper case, every other one in lower case;
    [None] when an upper-case form is no modelled string. *)
Fixpoint titleCaseFrom (atWordStart : bool) (s : string) : option string :=
  match s with
  | EmptyString => Some EmptyString
  | String c r =>
      match (if atWordStart then JS.upperOf c
             else Some (String (JS.lowerChar c) EmptyString)),
            titleCaseFrom (Ascii.eqb c "/" || Ascii.eqb c "_") r with
      | Some c', Some r' => Some (c' ++ r')
      | _, _ => None
      end
  end.

(** The title-cased form; the input itself where the form is no modelled
    string. *)
Definition titleCase (s : string) : string := default s (titleCaseFrom true s).

(** The six stages of the specification over the three tables: the first
    stage that yields a result wins. *)
Definition resolve_by_precedence (input : string) : list string :=
  let trimmed := JS.trim input in
  let lower := JS.toLowerCase trimmed in
  let fromTables :=
    match SHORT_FORM_MAP !! lower with
    | Some zone => [zone]
    | None =>
        match ABBREVIATION_MAP !! lower with
        | Some zones => zones
        | None =>
            match CITY_MAP !! lower with
            | Some zone => [zone]
            | None => []
            end
        end
    end in
  if String.eqb trimmed "" then []
  else if validTimeZone trimmed then [trimmed]
  else match titleCaseFrom true trimmed with
       | Some guess =>
           if negb (String.eqb guess trimmed) && validTimeZone guess then [guess]
           else fromTables
       | None => fromTables
       end.

End Host.

(** ** Sample hosts *)

(** Identifiers of the region/city form, and [UTC]. *)
Definition regionZones : list string :=
  [ "UTC"; "Europe/Berlin"; "Europe/Amsterdam"; "Europe/Dublin";
    "Asia/Kolkata"; "Asia/Jerusalem"; "Asia/Tokyo"; "Australia/Brisbane";
    "America/New_York"; "America/Los_Angeles"; "Pacific/Honolulu" ].

(** A host that accepts exactly the identifiers of [regionZones]. *)
Definition regionHost (tz : string) : bool := existsb (String.eqb tz) regionZones.

(** The IANA database also lists zone names without a region, [CET] among
    them. *)
Definition ianaZones : list string :=
  [ "CET"; "EET"; "MET"; "WET"; "EST"; "MST"; "HST" ] ++ regionZones.

(** A host that accepts the identifiers of [ianaZones], in any letter case. *)
Definition ianaHost (tz : string) : bool :=
  existsb (fun z => String.eqb (JS.toLowerCase z) (JS.toLowerCase tz)) ianaZones.

(** Zones without daylight saving time: the offset is the same at every
    instant. *)
Definition fixedOffset (tz : string) (date : Z) : Z :=
  if String.eqb tz "Australia/Brisbane" then 600
  else if String.eqb tz "Asia/Kolkata" then 330
  else if String.eqb tz "Asia/Tokyo" then 540
  else if String.eqb tz "Pacific/Honolulu" then -600
  else 0.

Definition noZoneName (tz : string) (date : Z) : string := "".

Definition noLocaleTime (tz : string) (date : Z) : string := "".

(** 2025-01-31T12:00:00Z, the last day of a month of 31 days. *)
Definition january31 : Z := Date_UTC 2025 0 31 12 0.

(** 2025-01-15T12:00:00Z *)
Definition january15 : Z := Date_UTC 2025 0 15 12 0.

(** 2025-02-01T12:00:00Z, the first day of a month. *)
Definition february1 : Z := Date_UTC 2025 1 1 12 0.

(** ** Definitions for the statements *)

(** The error texts of [parseQuery]. *)
Definition hourError12 : string := "Invalid time: hour must be 1-12 when using AM/PM".
Definition hourError24 : string := "Invalid time: hour must be 0-23".
Definition minuteError : string := "Invalid time: minutes must be 0-59".
Definition unknownTimezone (phrase : string) : string :=
  "Unknown timezone: " ++ JS.dquote ++ phrase ++ JS.dquote
  ++ ". Try CET, Berlin, or Europe/Berlin".



(** The day number of today's UTC date, as [convertTime] rebuilds it from
    the clock [now]. *)
Definition todayNumber (now : Z) : Z :=
  days_from_civil (getUTCFullYear now) (getUTCMonth now + 1) (getUTCDate now).

(** A string of white space only. *)
Fixpoint blank (s : string) : bool :=
  match s with
  | EmptyString => true
  | String c r => JS.isSpace c && blank r
  end.

(** The three table stages of the resolver, on the own properties of the
    tables and the members they inherit. *)
Definition tableStages (lower : string) : outcome (list jsval) :=
  match SHORT_FORM_MAP !! lower with
  | Some zone => Ret [VStr zone]
  | None =>
      if existsb (String.eqb lower) Object_prototype_keys then Ret [VProto lower]
      else match ABBREVIATION_MAP !! lower with
           | Some zones => Ret (map VStr zones)
           | None =>
               match CITY_MAP !! lower with
               | Some zone => Ret [VStr zone]
               | None => Ret []
               end
           end
  end.

(** The entry of the local zone in a target list. *)
Definition localTarget (localTimeZone : string) : Target :=
  {| ianaId := VStr localTimeZone; label := None |}.

(** Title-casing inside one slash-delimited segment: only the underscore
    starts a word. *)
Fixpoint titleCaseWordsFrom (atWordStart : bool) (s : string) : option string :=
  match s with
  | EmptyString => Some EmptyString
  | String c r =>
      match (if atWordStart then JS.upperOf c
             else Some (String (JS.lowerChar c) EmptyString)),
            titleCaseWordsFrom (Ascii.eqb c "_") r with
      | Some c', Some r' => Some (c' ++ r')
      | _, _ => None
      end
  end.

Definition joinRest (sep : string) (ws : list string) : string :=
  match ws with [] => "" | _ => sep ++ JS.join sep ws end.

(** ** Definitions for the further statements *)

(** [o] is absent. *)
Definition is_none {A : Type} (o : option A) : bool :=
  match o with Some _ => false | None => true end.

(** A key of one table: lower case, trimmed, and in no other table. *)
Definition key_ok (own : nat) (k : string) : bool :=
  String.eqb (JS.toLowerCase k) k && String.eqb (JS.trim k) k && JS.truthy k
  && negb (existsb (String.eqb k) Object_prototype_keys)
  && (Nat.eqb own 0 || is_none (SHORT_FORM_MAP !! k))
  && (Nat.eqb own 1 || is_none (ABBREVIATION_MAP !! k))
  && (Nat.eqb own 2 || is_none (CITY_MAP !! k)).

(** The abbreviations that stand for more than one zone. *)
Definition ambiguousKeys : list string := ["cst"; "ast"; "bst"; "ist"].

(** [zone] has a non-empty entry in [TIMEZONE_FULL_NAMES]. *)
Definition named (zone : string) : bool :=
  match TIMEZONE_FULL_NAMES !! zone with
  | Some name => JS.truthy name
  | None => false
  end.

(** More error texts of [parseQuery]. *)
Definition emptyQueryError : string :=
  "Empty query. Try something like: 7:22 CET or 7:22pm PST to CET".
Definition timeFormatError : string :=
  "Invalid time format. Use HH, HH:MM, or HH.MM, e.g., 11 CET, 7:22, or 7.22pm".
Definition missingSourceError : string := "Missing source timezone. Try: 7:22 CET".

(** [/^\d/] *)
Definition startsWithDigit (s : string) : bool :=
  match s with
  | EmptyString => false
  | String c _ => JS.isDigit c
  end.

(** [/^\w*$/] *)
Fixpoint allWord (s : string) : bool :=
  match s with
  | EmptyString => true
  | String c r => JS.isWord c && allWord r
  end.

(** [/^\w/] *)
Definition startsWithWord (s : string) : bool :=
  match s with
  | EmptyString => false
  | String c _ => JS.isWord c
  end.

(** [/\w$/] *)
Fixpoint endsWithWord (s : string) : bool :=
  match s with
  | EmptyString => false
  | String c EmptyString => JS.isWord c
  | String _ r => endsWithWord r
  end.

(** The error text for a target phrase that resolves to nothing. *)
Definition unknownTarget (phrase : string) : string :=
  "Unknown target timezone: " ++ JS.dquote ++ phrase ++ JS.dquote
  ++ ". Try CET, Berlin, or Europe/Berlin".

(** The failures of [parseQuery] that name no phrase. *)
Definition plainErrors : list string :=
  [ emptyQueryError; timeFormatError; hourError12; hourError24; minuteError;
    missingSourceError ].

(** The check of one day of the 400-year cycle: the date has a month in
    1..12 and a day in 1..31, the day number of the date is the day, and
    the next day is the next day of the same month or, from the 28th on,
    the first of a month. *)
Definition civil_ok (z : Z) : bool :=
  let '(y, m, d) := civil_from_days z in
  let '(y', m', d') := civil_from_days (z + 1) in
  (1 <=? m) && (m <=? 12) && (1 <=? d) && (d <=? 31) && (days_from_civil y m d =? z)
  && (if d' =? 1 then 28 <=? d else (y' =? y) && (m' =? m) && (d' =? d + 1)).

(** [f] holds at the [fuel] integers from [z] on. *)
Fixpoint all_from (fuel : nat) (z : Z) (f : Z -> bool) : bool :=
  match fuel with
  | O => true
  | S n => f z && all_from n (z + 1) f
  end.

(** The elements of [zones] that are neither in [seen] nor earlier in
    [zones], in their order. *)
Fixpoint firstOccurrences (seen : list jsval) (zones : list jsval) : list jsval :=
  match zones with
  | [] => []
  | z :: more =>
      if decide (z ∈ seen) then firstOccurrences seen more
      else z :: firstOccurrences (z :: seen) more
  end.

(** The target that [add(zone)] pushes. *)
Definition unlabelled (z : jsval) : Target := {| ianaId := z; label := None |}.

(** The zones an entry resolves to. *)
Definition zonesOf (validTimeZone : string -> bool) (entry : string) : list jsval :=
  match resolveTimezone validTimeZone entry with
  | Ret zones => zones
  | Throw _ => []
  end.

(** The entries of the favorites setting that are not empty. *)
Definition favoriteEntries (favoriteSetting : string) : list string :=
  List.filter JS.truthy (map JS.trim (JS.split "," favoriteSetting)).

(** The zones the explicit target stands for: what it resolves to, or the
    target itself when it resolves to nothing. *)
Definition explicitZones (validTimeZone : string -> bool) (parsed : ParsedQuery)
  : list jsval :=
  match targetTimezone parsed with
  | Some (VStr target) =>
      if JS.truthy target then
        match zonesOf validTimeZone target with
        | [] => [VStr target]
        | zones => zones
        end
      else []
  | _ => []
  end.

(** The state in which [seen] holds exactly the zones of the targets. *)
Definition seen_targets (st : TargetState) : Prop :=
  forall z, z ∈ seen st <-> z ∈ map ianaId (targets st).


(** The subtitle of a result row, [formatIanaId] of [src/convert-time.tsx]:
    [p.replace(/_/g, " ")] for one part. *)
Definition replaceUnderscores (p : string) : string :=
  JS.mapChars (fun c => if Ascii.eqb c "_" then " "%char else c) p.

(** [parts.shift()] leaves the parts after the first. *)
Definition formatIanaId (ianaId : string) : string :=
  let parts := JS.split "/" ianaId in
  let parts := tl parts in
  JS.join " / " (map replaceUnderscores parts).

(** [s] holds the character [c]. *)
Fixpoint hasChar (c : ascii) (s : string) : bool :=
  match s with
  | EmptyString => false
  | String d r => Ascii.eqb d c || hasChar c r
  end.

(** * Proofs *)

(** ** Facts about strings *)

Lemma lowerChar_idempotent (c : ascii) : JS.lowerChar (JS.lowerChar c) = JS.lowerChar c.
Proof. destruct c as [[] [] [] [] [] [] [] []]; reflexivity. Qed.

Lemma toLowerCase_idempotent (s : string) :
  JS.toLowerCase (JS.toLowerCase s) = JS.toLowerCase s.
Proof.
  induction s as [|c s IH]; simpl; [reflexivity|].
  unfold JS.toLowerCase in *; simpl. rewrite lowerChar_idempotent, IH. reflexivity.
Qed.

Lemma truthy_true (s : string) : JS.truthy s = true <-> s <> "".
Proof. destruct s; simpl; split; intros; congruence. Qed.

Lemma trim_blank (s : string) : blank s = true -> JS.trim s = "".
Proof.
  unfold JS.trim. induction s as [|c s IH]; cbn; [reflexivity|].
  intros [Hc Hs]%andb_true_iff. rewrite Hc. apply IH, Hs.
Qed.

Lemma append_cons (c : ascii) (s t : string) :
  (String c s ++ t)%string = String c (s ++ t).
Proof. reflexivity. Qed.

Lemma append_nil_l (t : string) : ("" ++ t)%string = t.
Proof. reflexivity. Qed.

Lemma append_nil_r (s : string) : (s ++ "")%string = s.
Proof. induction s as [|c s IH]; [reflexivity|]. rewrite append_cons, IH. reflexivity. Qed.

Lemma append_assoc (a b c : string) : ((a ++ b) ++ c = a ++ b ++ c)%string.
Proof.
  induction a as [|x a IH]; [reflexivity|].
  rewrite !append_cons, IH. reflexivity.
Qed.

(** [join] unfolds to the first part followed by the separated rest. *)
Lemma join_cons (sep w : string) (ws : list string) :
  JS.join sep (w :: ws) =
  (w ++ match ws with [] => "" | _ => sep ++ JS.join sep ws end)%string.
Proof. destruct ws; simpl; [rewrite append_nil_r|]; reflexivity. Qed.

Lemma split_nonempty (sep : ascii) (s : string) : JS.split sep s <> [].
Proof. induction s; simpl; [discriminate|]. destruct (Ascii.eqb a sep); [discriminate|]. destruct (JS.split sep s); discriminate. Qed.



(** ** The title-cased guess *)

Lemma upperOf_truthy (c : ascii) (u : string) :
  JS.upperOf c = Some u -> JS.truthy u = true.
Proof.
  unfold JS.upperOf. destruct (_ || _); [discriminate|].
  destruct (_ =? 223); intros [= <-]; reflexivity.
Qed.

Lemma capitalize_nil : capitalize "" = Some "".
Proof. reflexivity. Qed.

Lemma capitalize_cons (c : ascii) (w : string) :
  capitalize (String c w) =
  option_map (fun u => (u ++ JS.toLowerCase w)%string) (JS.upperOf c).
Proof.
  unfold capitalize. cbn [JS.charAt0 JS.toUpperCase JS.sliceFrom].
  destruct (JS.upperOf c) as [u|]; [|reflexivity].
  cbn [option_map]. rewrite append_nil_r. reflexivity.
Qed.

Lemma mapM_option_cons {A B : Type} (f : A -> option B) (x : A) (l : list A) :
  mapM f (x :: l) =
  match f x, mapM f l with
  | Some y, Some k => Some (y :: k)
  | _, _ => None
  end.
Proof. cbn. destruct (f x); [|reflexivity]. cbn. destruct (mapM f l); reflexivity. Qed.

Lemma mapM_option_ext {A B : Type} (f g : A -> option B) (l : list A) :
  (forall x, f x = g x) -> mapM f l = mapM g l.
Proof.
  intros H. induction l as [|x l IH]; [reflexivity|].
  rewrite !mapM_option_cons, H, IH. reflexivity.
Qed.

Lemma words_titleCase (b : bool) (s : string) :
  match JS.split "_" s with
  | [] => False
  | w :: ws =>
      match (if b then capitalize w else Some (JS.toLowerCase w)),
            mapM capitalize ws with
      | Some h, Some r => Some (h ++ joinRest "_" r)%string
      | _, _ => None
      end = titleCaseWordsFrom b s
  end.
Proof.
  revert b. induction s as [|c s IH]; intros b.
  - destruct b; reflexivity.
  - cbn [JS.split titleCaseWordsFrom]. destruct (Ascii.eqb c "_") eqn:Hc.
    + apply Ascii.eqb_eq in Hc. subst c.
      specialize (IH true). destruct (JS.split "_" s) as [|w ws]; [contradiction|].
      rewrite <- IH, mapM_option_cons.
      assert ((if b then capitalize "" else Some (JS.toLowerCase "")) = Some "") as ->
        by (destruct b; reflexivity).
      assert ((if b then JS.upperOf "_" else Some (String (JS.lowerChar "_") ""))
              = Some "_") as -> by (destruct b; reflexivity).
      destruct (capitalize w) as [x|]; [|reflexivity].
      destruct (mapM capitalize ws) as [xs|]; [|reflexivity].
      unfold joinRest at 1. rewrite join_cons. reflexivity.
    + specialize (IH false). destruct (JS.split "_" s) as [|w ws]; [contradiction|].
      rewrite <- IH.
      destruct b.
      * rewrite capitalize_cons. destruct (JS.upperOf c) as [u|]; [|reflexivity].
        cbn [option_map]. destruct (mapM capitalize ws) as [xs|]; [|reflexivity].
        rewrite append_assoc. reflexivity.
      * destruct (mapM capitalize ws) as [xs|]; reflexivity.
Qed.

Lemma segment_titleCase (s : string) :
  option_map (JS.join "_") (mapM capitalize (JS.split "_" s)) = titleCaseWordsFrom true s.
Proof.
  pose proof (words_titleCase true s) as H.
  destruct (JS.split "_" s) as [|w ws]; [contradiction|].
  rewrite <- H, mapM_option_cons.
  destruct (capitalize w) as [x|]; [|reflexivity].
  destruct (mapM capitalize ws) as [xs|]; [|reflexivity].
  cbn [option_map]. rewrite join_cons. reflexivity.
Qed.

Lemma segments_titleCase (b : bool) (s : string) :
  match JS.split "/" s with
  | [] => False
  | w :: ws =>
      match titleCaseWordsFrom b w, mapM (titleCaseWordsFrom true) ws with
      | Some h, Some r => Some (h ++ joinRest "/" r)%string
      | _, _ => None
      end = titleCaseFrom b s
  end.
Proof.
  revert b. induction s as [|c s IH]; intros b.
  - reflexivity.
  - cbn [JS.split titleCaseFrom]. destruct (Ascii.eqb c "/") eqn:Hc; cbn [orb].
    + apply Ascii.eqb_eq in Hc. subst c.
      specialize (IH true). destruct (JS.split "/" s) as [|w ws]; [contradiction|].
      rewrite <- IH, mapM_option_cons. cbn [titleCaseWordsFrom orb Ascii.eqb].
      assert ((if b then JS.upperOf "/" else Some (String (JS.lowerChar "/") ""))
              = Some "/") as -> by (destruct b; reflexivity).
      destruct (titleCaseWordsFrom true w) as [x|]; [|reflexivity].
      destruct (mapM (titleCaseWordsFrom true) ws) as [xs|]; [|reflexivity].
      unfold joinRest at 1. rewrite join_cons. reflexivity.
    + specialize (IH (Ascii.eqb c "_")).
      destruct (JS.split "/" s) as [|w ws]; [contradiction|].
      rewrite <- IH. cbn [titleCaseWordsFrom orb].
      destruct (if b then JS.upperOf c else Some (String (JS.lowerChar c) "")) as [u|];
        [|reflexivity].
      destruct (titleCaseWordsFrom (Ascii.eqb c "_") w) as [x|]; [|reflexivity].
      destruct (mapM (titleCaseWordsFrom true) ws) as [xs|]; [|reflexivity].
      rewrite append_assoc. reflexivity.
Qed.

Lemma ianaGuessOf_titleCase (s : string) : ianaGuessOf s = titleCaseFrom true s.
Proof.
  unfold ianaGuessOf.
  rewrite (mapM_option_ext _ (titleCaseWordsFrom true)) by (intros; apply segment_titleCase).
  pose proof (segments_titleCase true s) as H.
  destruct (JS.split "/" s) as [|w ws]; [contradiction|].
  rewrite <- H, mapM_option_cons.
  destruct (titleCaseWordsFrom true w) as [x|]; [|reflexivity].
  destruct (mapM (titleCaseWordsFrom true) ws) as [xs|]; [|reflexivity].
  cbn [option_map]. rewrite join_cons. reflexivity.
Qed.

Lemma titleCaseFrom_truthy (b : bool) (s g : string) :
  titleCaseFrom b s = Some g -> JS.truthy g = JS.truthy s.
Proof.
  destruct s as [|c s]; [intros [= <-]; reflexivity|]. cbn [titleCaseFrom JS.truthy].
  destruct (if b then JS.upperOf c else Some (String (JS.lowerChar c) "")) as [u|] eqn:Hu;
    [|discriminate].
  destruct (titleCaseFrom _ s) as [r|]; [|discriminate]. intros [= <-].
  assert (Ht : JS.truthy u = true).
  { destruct b; [apply (upperOf_truthy c), Hu|injection Hu as <-; reflexivity]. }
  destruct u; [discriminate|reflexivity].
Qed.

Lemma titleCase_truthy (s : string) : JS.truthy (titleCase s) = JS.truthy s.
Proof.
  unfold titleCase. destruct (titleCaseFrom true s) as [g|] eqn:H; [|reflexivity].
  apply (titleCaseFrom_truthy _ _ _ H).
Qed.

(** ** Facts about the tables *)

Lemma lookup_forallb {A : Type} (P : string -> A -> bool) (m : gmap string A)
    (k : string) (v : A) :
  forallb (fun kv => P kv.1 kv.2) (map_to_list m) = true ->
  m !! k = Some v -> P k v = true.
Proof.
  intros Hall Hk. apply elem_of_map_to_list in Hk.
  rewrite forallb_forall in Hall. apply (Hall (k, v)).
  apply list_elem_of_In. exact Hk.
Qed.

Lemma SHORT_FORM_MAP_truthy (k zone : string) :
  SHORT_FORM_MAP !! k = Some zone -> JS.truthy zone = true.
Proof. apply (lookup_forallb (fun _ z => JS.truthy z)). vm_compute. reflexivity. Qed.

Lemma CITY_MAP_truthy (k zone : string) :
  CITY_MAP !! k = Some zone -> JS.truthy zone = true.
Proof. apply (lookup_forallb (fun _ z => JS.truthy z)). vm_compute. reflexivity. Qed.

Lemma ABBREVIATION_MAP_truthy (k : string) (zones : list string) :
  ABBREVIATION_MAP !! k = Some zones ->
  negb (Nat.eqb (length zones) 0) && forallb JS.truthy zones = true.
Proof.
  apply (lookup_forallb (fun _ zs => negb (Nat.eqb (length zs) 0) && forallb JS.truthy zs)).
  vm_compute. reflexivity.
Qed.

(** A lower-cased key names no property of [Object.prototype] other than
    [constructor] and [__proto__]: the other names have a capital. *)
Lemma lowercase_prototype_key (s : string) :
  existsb (String.eqb (JS.toLowerCase s)) Object_prototype_keys = true ->
  JS.toLowerCase s = "constructor" \/ JS.toLowerCase s = "__proto__".
Proof.
  intros H. apply existsb_exists in H as (k & Hin & Hk).
  apply String.eqb_eq in Hk. rewrite Hk.
  assert (Hlow : JS.toLowerCase k = k)
    by (rewrite <- Hk; apply toLowerCase_idempotent).
  clear Hk. unfold Object_prototype_keys in Hin. simpl in Hin.
  repeat (destruct Hin as [<- | Hin]; [first [left; reflexivity | right; reflexivity | discriminate Hlow]|]).
  contradiction.
Qed.

Lemma obj_get_own {A : Type} (obj : gmap string A) (k : string) (a : A) :
  obj_get obj k = Own a <-> obj !! k = Some a.
Proof.
  unfold obj_get. destruct (obj !! k); [split; intros; congruence|].
  destruct (existsb _ _); split; intros; congruence.
Qed.

Lemma obj_get_inherited {A : Type} (obj : gmap string A) (k k' : string) :
  obj_get obj k = Inherited k' ->
  k' = k /\ obj !! k = None /\ existsb (String.eqb k) Object_prototype_keys = true.
Proof.
  unfold obj_get. destruct (obj !! k); [discriminate|].
  destruct (existsb _ _); [|discriminate]. intros [= <-]. auto.
Qed.

(** ** The zone resolver *)

Section Resolver.

Variable validTimeZone : string -> bool.

Local Abbreviation resolve := (resolveTimezone validTimeZone).

Lemma isValidIana_eq (tz : string) : isValidIana validTimeZone tz = validTimeZone tz.
Proof. unfold isValidIana, Intl_DateTimeFormat. destruct (validTimeZone tz); reflexivity. Qed.

(** Blank input resolves to nothing. *)
Lemma resolveTimezone_blank (input : string) :
  JS.trim input = "" -> resolve input = Ret [].
Proof. intros H. unfold resolveTimezone. rewrite H. reflexivity. Qed.

(** Empty and white-space-only input resolves to nothing. *)
Lemma resolveTimezone_whitespace (input : string) :
  blank input = true -> resolve input = Ret [].
Proof. intros H. apply resolveTimezone_blank, trim_blank, H. Qed.

(** Stage 1: the trimmed input is an identifier of the host. *)
Lemma resolveTimezone_exact (input : string) :
  JS.trim input <> "" -> validTimeZone (JS.trim input) = true ->
  resolve input = Ret [VStr (JS.trim input)].
Proof.
  intros Hne Hv. unfold resolveTimezone.
  apply truthy_true in Hne. rewrite Hne, isValidIana_eq, Hv. reflexivity.
Qed.

(** The resolver once stage 1 has failed: the title-cased guess, then the
    tables. *)
Lemma resolveTimezone_stages (input : string) :
  JS.trim input <> "" -> validTimeZone (JS.trim input) = false ->
  resolve input =
  match titleCaseFrom true (JS.trim input) with
  | Some guess =>
      if negb (String.eqb guess (JS.trim input)) && validTimeZone guess
      then Ret [VStr guess] else tableStages (JS.toLowerCase (JS.trim input))
  | None => tableStages (JS.toLowerCase (JS.trim input))
  end.
Proof.
  intros Hne Hv. unfold resolveTimezone.
  apply truthy_true in Hne. rewrite Hne, isValidIana_eq, Hv, ianaGuessOf_titleCase.
  cbn [negb]. cbv zeta.
  match goal with
  | |- match _ with Some _ => if _ then _ else ?T | None => _ end = _ =>
      assert (HT : T = tableStages (JS.toLowerCase (JS.trim input)))
  end.
  { unfold tableStages, obj_get.
    destruct (SHORT_FORM_MAP !! _) as [zone|] eqn:Hs.
    - rewrite (SHORT_FORM_MAP_truthy _ _ Hs). reflexivity.
    - destruct (existsb _ _); [reflexivity|].
      destruct (ABBREVIATION_MAP !! _); [reflexivity|].
      destruct (CITY_MAP !! _) as [zone|] eqn:Hc; [|reflexivity].
      rewrite (CITY_MAP_truthy _ _ Hc). reflexivity. }
  rewrite HT. destruct (titleCaseFrom true (JS.trim input)) as [guess|]; [|reflexivity].
  rewrite isValidIana_eq. reflexivity.
Qed.

(** What is left of the resolver once stages 1 and 2 have failed. *)
Lemma resolveTimezone_tables (input : string) :
  JS.trim input <> "" -> validTimeZone (JS.trim input) = false ->
  validTimeZone (titleCase (JS.trim input)) = false ->
  resolve input =
  let lower := JS.toLowerCase (JS.trim input) in
  match SHORT_FORM_MAP !! lower with
  | Some zone => Ret [VStr zone]
  | None =>
      if existsb (String.eqb lower) Object_prototype_keys then Ret [VProto lower]
      else match ABBREVIATION_MAP !! lower with
           | Some zones => Ret (map VStr zones)
           | None =>
               match CITY_MAP !! lower with
               | Some zone => Ret [VStr zone]
               | None => Ret []
               end
           end
  end.
Proof.
  intros Hne Hv Hg. rewrite resolveTimezone_stages by assumption.
  unfold titleCase in Hg.
  destruct (titleCaseFrom true (JS.trim input)) as [guess|]; [|reflexivity].
  change (validTimeZone guess = false) in Hg. rewrite Hg, andb_false_r. reflexivity.
Qed.

Lemma tableStages_returns (lower : string) : exists zones, tableStages lower = Ret zones.
Proof.
  unfold tableStages. destruct (SHORT_FORM_MAP !! _); [eauto|].
  destruct (existsb _ _); [eauto|]. destruct (ABBREVIATION_MAP !! _); [eauto|].
  destruct (CITY_MAP !! _); eauto.
Qed.

Lemma tableStages_truthy (lower : string) (zones : list jsval) :
  tableStages lower = Ret zones -> Forall (fun z => truthyVal z = true) zones.
Proof.
  unfold tableStages.
  destruct (SHORT_FORM_MAP !! _) as [zone|] eqn:Hs.
  { intros [= <-]. repeat constructor. exact (SHORT_FORM_MAP_truthy _ _ Hs). }
  destruct (existsb _ _); [intros [= <-]; repeat constructor|].
  destruct (ABBREVIATION_MAP !! _) as [zs|] eqn:Ha.
  { intros [= <-]. apply ABBREVIATION_MAP_truthy, andb_true_iff in Ha as [_ Ha].
    rewrite forallb_forall in Ha. apply Forall_forall. intros z Hz.
    apply list_elem_of_In, in_map_iff in Hz as (x & <- & Hx). exact (Ha x Hx). }
  destruct (CITY_MAP !! _) as [zone|] eqn:Hc; [|intros [= <-]; constructor].
  intros [= <-]. repeat constructor. exact (CITY_MAP_truthy _ _ Hc).
Qed.

(** The resolver never throws. *)
Lemma resolveTimezone_returns (input : string) :
  exists zones, resolve input = Ret zones.
Proof.
  destruct (String.eqb_spec (JS.trim input) "") as [He|Hne].
  { rewrite resolveTimezone_blank by exact He. eauto. }
  destruct (validTimeZone (JS.trim input)) eqn:Hv.
  { rewrite resolveTimezone_exact by assumption. eauto. }
  rewrite resolveTimezone_stages by assumption.
  destruct (titleCaseFrom true (JS.trim input)) as [guess|];
    [destruct (_ && _); [eauto|]|]; apply tableStages_returns.
Qed.

(** No resolved zone is the empty string. *)
Lemma resolveTimezone_truthy (input : string) (zones : list jsval) :
  resolve input = Ret zones -> Forall (fun z => truthyVal z = true) zones.
Proof.
  destruct (String.eqb_spec (JS.trim input) "") as [He|Hne].
  { rewrite resolveTimezone_blank by exact He. intros [= <-]. constructor. }
  destruct (validTimeZone (JS.trim input)) eqn:Hv.
  { rewrite resolveTimezone_exact by assumption. intros [= <-].
    repeat constructor. apply truthy_true, Hne. }
  rewrite resolveTimezone_stages by assumption.
  destruct (titleCaseFrom true (JS.trim input)) as [guess|] eqn:Hg;
    [|apply tableStages_truthy].
  destruct (_ && _); [|apply tableStages_truthy].
  intros [= <-]. repeat constructor. cbn [truthyVal].
  rewrite (titleCaseFrom_truthy _ _ _ Hg). apply truthy_true, Hne.
Qed.

(** X1. Outside the two inherited keys the resolver is the six-stage precedence
    of the specification. *)
Lemma resolveTimezone_by_precedence (input : string) :
  JS.toLowerCase (JS.trim input) <> "constructor" ->
  JS.toLowerCase (JS.trim input) <> "__proto__" ->
  resolve input = Ret (map VStr (resolve_by_precedence validTimeZone input)).
Proof.
  intros Hc Hp. unfold resolve_by_precedence. cbv zeta.
  destruct (String.eqb_spec (JS.trim input) "") as [He|Hne].
  { apply resolveTimezone_blank, He. }
  destruct (validTimeZone (JS.trim input)) eqn:Hv.
  { apply resolveTimezone_exact; assumption. }
  rewrite resolveTimezone_stages by assumption.
  assert (HT : tableStages (JS.toLowerCase (JS.trim input)) =
               Ret (map VStr
                 match SHORT_FORM_MAP !! JS.toLowerCase (JS.trim input) with
                 | Some zone => [zone]
                 | None =>
                     match ABBREVIATION_MAP !! JS.toLowerCase (JS.trim input) with
                     | Some zones => zones
                     | None =>
                         match CITY_MAP !! JS.toLowerCase (JS.trim input) with
                         | Some zone => [zone]
                         | None => []
                         end
                     end
                 end)).
  { unfold tableStages. destruct (SHORT_FORM_MAP !! _); [reflexivity|].
    destruct (existsb _ _) eqn:Hk.
    { apply lowercase_prototype_key in Hk as [?|?]; contradiction. }
    destruct (ABBREVIATION_MAP !! _); [reflexivity|].
    destruct (CITY_MAP !! _); reflexivity. }
  rewrite HT. destruct (titleCaseFrom true (JS.trim input)) as [guess|]; [|reflexivity].
  destruct (_ && _); reflexivity.
Qed.

End Resolver.

Section Parser.

Variable validTimeZone : string -> bool.

Local Abbreviation resolve := (resolveTimezone validTimeZone).
Local Abbreviation parse := (parseQuery validTimeZone).

Lemma truthyVal_not_empty (z : jsval) : truthyVal z = true -> z <> VStr "".
Proof. intros H ->. discriminate H. Qed.


End Parser.

Section Clock24.

Variable validTimeZone : string -> bool.

Local Abbreviation resolve := (resolveTimezone validTimeZone).
Local Abbreviation parse := (parseQuery validTimeZone).

(** Case analysis on an integer known to lie in [0 .. n-1]. *)
Ltac enumerate_nat k n :=
  lazymatch n with
  | O => exfalso; lia
  | S ?n' => destruct k as [|k]; [|enumerate_nat k n']
  end.

Ltac enumerate x n :=
  let k := fresh "k" in
  assert (exists k' : nat, x = Z.of_nat k') as [k ->]
    by (exists (Z.to_nat x); lia);
  let n' := eval compute in n in enumerate_nat k n'.

(** C1, amended. On every host, for every hour H in 0..23 and every minute
    MM in 0..59 the query "H:MM CET" parses without an error, with hours H
    and minutes MM; the source zone is [CET] when the host knows that
    identifier, else [Cet] when the host knows that one, and Europe/Berlin
    otherwise. *)
Theorem parseQuery_24h_CET (H MM : Z) :
  0 <= H <= 23 -> 0 <= MM <= 59 ->
  parse (formatTime H MM ++ " CET") =
  Ret {| timeStr := formatTime H MM; hours := H; minutes := MM;
         sourceTimezone :=
           VStr (if validTimeZone "CET" then "CET"
                 else if validTimeZone "Cet" then "Cet" else "Europe/Berlin");
         sourceLabel := "CET"; targetTimezone := None; error := None |}.
Proof.
  intros HH HMM.
  enumerate H 24%nat; enumerate MM 60%nat;
    vm_compute; destruct (validTimeZone "CET"), (validTimeZone "Cet"); reflexivity.
Qed.

End Clock24.

Section Targets.

Variable validTimeZone : string -> bool.
Variable localTimeZone : string.

Local Abbreviation resolve := (resolveTimezone validTimeZone).
Local Abbreviation assemble := (getTargetTimezones validTimeZone localTimeZone).






End Targets.

Section Examples.

Variable validTimeZone : string -> bool.
Variable localTimeZone : string.

Local Abbreviation resolve := (resolveTimezone validTimeZone).
Local Abbreviation parse := (parseQuery validTimeZone).
Local Abbreviation assemble := (getTargetTimezones validTimeZone localTimeZone).

(** C4, amended. On a host that accepts neither [IST] nor [Ist] as a zone
    identifier, [resolveTimezone "IST"] is Asia/Kolkata, Asia/Jerusalem,
    Europe/Dublin in that order; the disambiguation label of Asia/Kolkata
    under IST is "India Standard Time"; and for every zone and every label
    whose lower-casing is neither [__proto__] nor an abbreviation key with
    more than one candidate, there is no disambiguation label. *)
Theorem resolveTimezone_IST_and_labels :
  (validTimeZone "IST" = false -> validTimeZone "Ist" = false ->
   resolve "IST" = Ret [VStr "Asia/Kolkata"; VStr "Asia/Jerusalem"; VStr "Europe/Dublin"]) /\
  getDisambiguationLabel "Asia/Kolkata" "IST" = Some (VStr "India Standard Time") /\
  (forall zoneId label : string,
     JS.toLowerCase label <> "__proto__" ->
     ~ (exists zones, ABBREVIATION_MAP !! JS.toLowerCase label = Some zones
                      /\ (1 < length zones)%nat) ->
     getDisambiguationLabel zoneId label = None).
Proof.
  split; [|split].
  - intros H1 H2. rewrite resolveTimezone_tables; [reflexivity|discriminate|exact H1|exact H2].
  - reflexivity.
  - intros zoneId label Hproto Hnot. unfold getDisambiguationLabel. cbv zeta.
    destruct (obj_get ABBREVIATION_MAP (JS.toLowerCase label)) as [zones|k|] eqn:Hg;
      [| |reflexivity].
    + apply obj_get_own in Hg.
      destruct (Z.leb_spec (Z.of_nat (length zones)) 1) as [_|Hlen]; [reflexivity|].
      exfalso. apply Hnot. exists zones. split; [exact Hg|lia].
    + apply obj_get_inherited in Hg as (-> & _ & Hk).
      apply lowercase_prototype_key in Hk as [Hk|Hk]; [rewrite Hk; reflexivity|contradiction].
Qed.

(** C5. On a host that accepts neither [constructor] nor [Constructor] as a
    zone identifier, the six-stage precedence yields the empty result for the
    input "constructor", but [resolveTimezone] returns one element: the
    short-form lookup finds the property that the table inherits from
    [Object.prototype]. *)
Theorem resolveTimezone_inherited_key :
  validTimeZone "constructor" = false -> validTimeZone "Constructor" = false ->
  resolve "constructor" = Ret [VProto "constructor"] /\
  resolve_by_precedence validTimeZone "constructor" = [].
Proof.
  intros H1 H2. split.
  - rewrite resolveTimezone_tables; [reflexivity|discriminate|exact H1|exact H2].
  - vm_compute. rewrite H1, H2. reflexivity.
Qed.

(** C6. "25:00 CET" fails with the hour error of the 24-hour clock and
    "7:60 CET" with the minute error; and for every input whose matched hour
    and minute are both out of range, the error is the hour error of the
    clock in use (1-12 with a meridiem, 0-23 without). *)
Theorem parseQuery_hour_check_first :
  (exists r, parse "25:00 CET" = Ret r /\ error r = Some hourError24) /\
  (exists r, parse "7:60 CET" = Ret r /\ error r = Some minuteError) /\
  (forall (query : string) (tm : TimeMatch),
     match_TIME_RE (JS.trim query) = Some tm ->
     59 < match m2 tm with Some mm => JS.parseInt mm | None => 0 end ->
     (m3 tm <> None -> JS.parseInt (m1 tm) < 1 \/ 12 < JS.parseInt (m1 tm) ->
      exists r, parse query = Ret r /\ error r = Some hourError12) /\
     (m3 tm = None -> 23 < JS.parseInt (m1 tm) ->
      exists r, parse query = Ret r /\ error r = Some hourError24)).
Proof.
  split; [|split].
  - eexists. split; reflexivity.
  - eexists. split; reflexivity.
  - intros query tm Hm _.
    assert (Ht : negb (JS.truthy (JS.trim query)) = false)
      by (destruct (JS.trim query); [discriminate Hm|reflexivity]).
    split.
    + intros Hap Hh. unfold parseQuery. rewrite Ht, Hm. cbv zeta.
      destruct (m3 tm) as [ap|]; [|contradiction]. cbn [option_map].
      assert ((JS.parseInt (m1 tm) <? 1) || (12 <? JS.parseInt (m1 tm)) = true) as ->
        by (apply orb_true_iff; destruct Hh; [left; apply Z.ltb_lt|right; apply Z.ltb_lt]; assumption).
      eexists. split; reflexivity.
    + intros Hap Hh. unfold parseQuery. rewrite Ht, Hm. cbv zeta. rewrite Hap. cbn [option_map].
      apply Z.ltb_lt in Hh. rewrite Hh.
      eexists. split; reflexivity.
Qed.



End Examples.

Section AmbiguousTarget.

Variable validTimeZone : string -> bool.
Variable localTimeZone : string.

Local Abbreviation resolve := (resolveTimezone validTimeZone).
Local Abbreviation parse := (parseQuery validTimeZone).
Local Abbreviation assemble := (getTargetTimezones validTimeZone localTimeZone).

Lemma resolveTimezone_Kolkata_again :
  resolve "Asia/Kolkata" = Ret [VStr "Asia/Kolkata"] \/ resolve "Asia/Kolkata" = Ret [].
Proof.
  destruct (validTimeZone "Asia/Kolkata") eqn:Hv.
  - left. rewrite resolveTimezone_exact; [reflexivity|discriminate|exact Hv].
  - right. rewrite resolveTimezone_tables; [reflexivity|discriminate|exact Hv|exact Hv].
Qed.

Lemma getTargetTimezones_Kolkata (parsed : ParsedQuery) :
  targetTimezone parsed = Some (VStr "Asia/Kolkata") ->
  assemble parsed "" =
  Ret (if String.eqb localTimeZone "Asia/Kolkata" then [localTarget localTimeZone]
       else [localTarget localTimeZone; {| ianaId := VStr "Asia/Kolkata"; label := None |}]).
Proof.
  intros Ht. unfold getTargetTimezones. rewrite Ht. cbv zeta.
  cbn [truthyVal JS.truthy resolveTimezoneVal].
  assert (Hadd :
    (let! targetResolved := resolve "Asia/Kolkata" in
     match targetResolved with
     | [] => Ret (add (add {| seen := ∅; targets := [] |} (VStr localTimeZone) None)
                      (VStr "Asia/Kolkata") None)
     | _ => Ret (addAll (add {| seen := ∅; targets := [] |} (VStr localTimeZone) None)
                        targetResolved)
     end) =
    Ret (add (add {| seen := ∅; targets := [] |} (VStr localTimeZone) None)
             (VStr "Asia/Kolkata") None))
    by (destruct resolveTimezone_Kolkata_again as [-> | ->]; reflexivity).
  rewrite Hadd. cbn [bind]. change (JS.truthy (JS.trim "")) with false. cbn [bind].
  f_equal. unfold add at 2. rewrite decide_False by apply not_elem_of_empty.
  unfold add, localTarget. cbn [seen targets app].
  destruct (String.eqb_spec localTimeZone "Asia/Kolkata") as [Heq|Hne].
  - rewrite decide_True; [reflexivity|].
    apply elem_of_union_l, elem_of_singleton. rewrite Heq. reflexivity.
  - rewrite decide_False; [reflexivity|].
    rewrite elem_of_union, elem_of_singleton, elem_of_empty. intros [[=]|[]]. congruence.
Qed.

(** C2. On a host that accepts neither [IST] nor [Ist] as a zone identifier,
    the target phrase of "7 CET to IST" resolves to three zones, the parsed
    query keeps the first one as its target, and target assembly without
    favorites returns the local zone followed by Asia/Kolkata alone:
    Asia/Jerusalem and Europe/Dublin are not added. *)
Theorem getTargetTimezones_ambiguous_target :
  validTimeZone "IST" = false -> validTimeZone "Ist" = false ->
  resolve "IST" = Ret [VStr "Asia/Kolkata"; VStr "Asia/Jerusalem"; VStr "Europe/Dublin"] /\
  exists parsed,
    parse "7 CET to IST" = Ret parsed /\ error parsed = None /\
    targetTimezone parsed = Some (VStr "Asia/Kolkata") /\
    assemble parsed "" =
    Ret (if String.eqb localTimeZone "Asia/Kolkata" then [localTarget localTimeZone]
         else [localTarget localTimeZone; {| ianaId := VStr "Asia/Kolkata"; label := None |}]).
Proof.
  intros H1 H2. split.
  { rewrite resolveTimezone_tables; [reflexivity|discriminate|exact H1|exact H2]. }
  assert (Hparse : exists source,
    parse "7 CET to IST" =
    Ret {| timeStr := "7"; hours := 7; minutes := 0; sourceTimezone := source;
           sourceLabel := "CET"; targetTimezone := Some (VStr "Asia/Kolkata");
           error := None |}).
  { destruct (validTimeZone "CET") eqn:Hc; [|destruct (validTimeZone "Cet") eqn:Hc'];
      eexists; vm_compute; rewrite ?Hc, ?Hc', ?H1, ?H2; reflexivity. }
  destruct Hparse as [source Hparse]. eexists. split; [exact Hparse|].
  split; [reflexivity|]. split; [reflexivity|].
  apply getTargetTimezones_Kolkata. reflexivity.
Qed.

End AmbiguousTarget.

(** C3. On 2025-01-31, converting 20:00 from UTC to Australia/Brisbane (ten
    hours ahead, all year) yields 6:00 with day offset 0, and converting 6:00
    back yields 20:00 with day offset -1: the day offsets are not opposite. *)
Theorem convertTime_round_trip_month_end :
  let convert := convertTime regionHost "Europe/Berlin" january31 fixedOffset
                             noZoneName noLocaleTime in
  exists forward back,
    convert 20 0 "UTC" "Australia/Brisbane" None = Ret forward /\
    convert (ct_hours forward) (ct_minutes forward) "Australia/Brisbane" "UTC" None
      = Ret back /\
    (ct_hours forward, ct_minutes forward, ct_dayOffset forward) = (6, 0, 0) /\
    (ct_hours back, ct_minutes back, ct_dayOffset back) = (20, 0, -1) /\
    ct_dayOffset back <> - ct_dayOffset forward.
Proof.
  cbv zeta. eexists _, _. split; [vm_compute; reflexivity|].
  split; [vm_compute; reflexivity|]. cbn. repeat split. discriminate.
Qed.

(** The offset that [getUtcOffsetMinutes] computes weighs a month as 43800
    minutes, so it is off when the zone and UTC are in different months: on
    2025-02-01, 5:00 in Honolulu (ten hours behind, all year) converts to 1:00
    UTC instead of 15:00, and 1:00 UTC converts back to 15:00. *)
Lemma convertTime_round_trip_first_of_month :
  let convert := convertTime regionHost "Europe/Berlin" february1 fixedOffset
                             noZoneName noLocaleTime in
  getUtcOffsetMinutes regionHost fixedOffset "Pacific/Honolulu"
                      (Date_UTC 2025 1 1 5 0) = Ret 240 /\
  exists forward back,
    convert 5 0 "Pacific/Honolulu" "UTC" None = Ret forward /\
    convert (ct_hours forward) (ct_minutes forward) "UTC" "Pacific/Honolulu" None
      = Ret back /\
    (ct_hours forward, ct_minutes forward) = (1, 0) /\
    (ct_hours back, ct_minutes back) = (15, 0).
Proof.
  cbv zeta. split; [vm_compute; reflexivity|].
  eexists _, _. split; [vm_compute; reflexivity|].
  split; [vm_compute; reflexivity|]. split; reflexivity.
Qed.

(** C1 as stated fails on a host that knows the zone name [CET], which the
    IANA database lists: the first stage of the resolver returns the
    identifier itself, and the source zone of "7:22 CET" is [CET]. *)
Lemma parseQuery_24h_CET_host_zone :
  ianaHost "CET" = true /\
  exists r, parseQuery ianaHost (formatTime 7 22 ++ " CET") = Ret r /\
            error r = None /\ hours r = 7 /\ minutes r = 22 /\
            sourceTimezone r = VStr "CET" /\
            sourceTimezone r <> VStr "Europe/Berlin".
Proof.
  split; [reflexivity|]. eexists. split; [vm_compute; reflexivity|].
  cbn. repeat split. discriminate.
Qed.

(** C4 as stated fails for the label [__proto__]: it is no key of the
    abbreviation table, yet the lookup finds [Object.prototype], which has no
    length, and a label is returned. *)
Lemma getDisambiguationLabel_proto_label :
  ~ (exists zones, ABBREVIATION_MAP !! JS.toLowerCase "__proto__" = Some zones
                   /\ (1 < length zones)%nat) /\
  getDisambiguationLabel "Asia/Kolkata" "__proto__" = Some (VStr "India Standard Time").
Proof.
  split; [|reflexivity]. intros (zones & Hz & _). vm_compute in Hz. discriminate.
Qed.

(** ** Conversion between zones of constant offset *)

Lemma minutes_split (Y : Z) : Y mod 1440 / 60 * 60 + Y mod 60 = Y mod 1440.
Proof.
  rewrite <- (Z.mod_mod_divide Y 1440 60) by (exists 24; lia).
  pose proof (Z.div_mod (Y mod 1440) 60). lia.
Qed.

Lemma hour_in_day (Y : Z) : (Y mod 1440 / 60) mod 24 = Y mod 1440 / 60.
Proof.
  apply Z.mod_small. pose proof (Z.mod_pos_bound Y 1440).
  split; [apply Z.div_pos; lia|apply Z.div_lt_upper_bound; lia].
Qed.

Lemma day_shift (D Y : Z) :
  (D * 1440 + Y) / 1440 = D + Y / 1440 /\
  (D * 1440 + Y) mod 1440 = Y mod 1440 /\
  (D * 1440 + Y) mod 60 = Y mod 60.
Proof.
  rewrite (Z.add_comm (D * 1440) Y).
  split; [rewrite Z.div_add by lia; lia|].
  split; [apply Z.mod_add; lia|].
  replace (D * 1440) with (D * 24 * 60) by ring. apply Z.mod_add. lia.
Qed.

Lemma instant_minus_offset (D X s : Z) :
  (D * 1440 + X) * msPerMinute - s * 60000 = (D * 1440 + (X - s)) * msPerMinute.
Proof. unfold msPerMinute. ring. Qed.

Lemma Date_UTC_minutes (D h m : Z) :
  D * msPerDay + h * msPerHour + m * msPerMinute = (D * 1440 + (60 * h + m)) * msPerMinute.
Proof. unfold msPerDay, msPerHour, msPerMinute. ring. Qed.

Section ConstantOffsets.

Variable validTimeZone : string -> bool.
Variable localTimeZone : string.
Variable now : Z.
Variable zoneOffset : string -> Z -> Z.
Variable zoneName : string -> Z -> string.
Variable localeTime : string -> Z -> string.

Local Abbreviation parts := (getDateParts validTimeZone zoneOffset).
Local Abbreviation offsetMinutes := (getUtcOffsetMinutes validTimeZone zoneOffset).
Local Abbreviation convert :=
  (convertTime validTimeZone localTimeZone now zoneOffset zoneName localeTime).

Local Abbreviation today := (todayNumber now).

(** The calendar fields of an instant given in minutes. *)
Lemma getDateParts_minutes (tz : string) (M : Z) :
  validTimeZone tz = true ->
  parts (M * msPerMinute) tz =
  let Y := M + zoneOffset tz (M * msPerMinute) in
  let '(y, mo, d) := civil_from_days (Y / 1440) in
  Ret {| year := y; month := mo; day := d;
         hour := Y mod 1440 / 60; minute := Y mod 60 |}.
Proof.
  intros Hv. unfold getDateParts, Intl_DateTimeFormat. rewrite Hv. cbn [bind]. cbv zeta.
  set (o := zoneOffset tz (M * msPerMinute)).
  replace (M * msPerMinute + o * msPerMinute) with ((M + o) * 60000)
    by (unfold msPerMinute; ring).
  change msPerDay with (1440 * 60000). change msPerHour with (60 * 60000).
  change msPerMinute with 60000.
  rewrite Z.div_mul_cancel_r by lia.
  rewrite Z.mul_mod_distr_r by lia.
  rewrite Z.div_mul_cancel_r by lia.
  rewrite Z.div_mul by lia.
  rewrite hour_in_day.
  rewrite (Z.mod_mod_divide (M + o) 1440 60) by (exists 24; lia).
  reflexivity.
Qed.

Variables (y mo d : Z).

(** The five days around today lie in one month. *)
Hypothesis same_month :
  forall k, -2 <= k <= 2 -> civil_from_days (today + k) = (y, mo, d + k).

Hypothesis UTC_valid : validTimeZone "UTC" = true.
Hypothesis UTC_offset : forall t, zoneOffset "UTC" t = 0.

Lemma getDateParts_near (tz : string) (o X : Z) :
  validTimeZone tz = true -> (forall t, zoneOffset tz t = o) ->
  -2 <= (X + o) / 1440 <= 2 ->
  parts ((today * 1440 + X) * msPerMinute) tz =
  Ret {| year := y; month := mo; day := d + (X + o) / 1440;
         hour := (X + o) mod 1440 / 60; minute := (X + o) mod 60 |}.
Proof.
  intros Hv Ho Hk. rewrite getDateParts_minutes by exact Hv. cbv zeta. rewrite Ho.
  rewrite <- Z.add_assoc.
  destruct (day_shift today (X + o)) as (-> & -> & ->).
  rewrite (same_month _ Hk). reflexivity.
Qed.

Lemma getUtcOffsetMinutes_near (tz : string) (o X : Z) :
  validTimeZone tz = true -> (forall t, zoneOffset tz t = o) ->
  -2 <= X / 1440 <= 2 -> -2 <= (X + o) / 1440 <= 2 ->
  offsetMinutes tz ((today * 1440 + X) * msPerMinute) = Ret o.
Proof.
  intros Hv Ho Hx Hk. unfold getUtcOffsetMinutes.
  rewrite (getDateParts_near "UTC" 0 X UTC_valid UTC_offset)
    by (rewrite Z.add_0_r; exact Hx).
  rewrite (getDateParts_near tz o X Hv Ho Hk). cbn [bind year month day hour minute].
  f_equal. rewrite Z.add_0_r.
  pose proof (minutes_split (X + o)). pose proof (minutes_split X).
  pose proof (Z.div_mod (X + o) 1440). pose proof (Z.div_mod X 1440). lia.
Qed.

Lemma Date_UTC_today (h m : Z) :
  Date_UTC (getUTCFullYear now) (getUTCMonth now) (getUTCDate now) h m =
  (today * 1440 + (60 * h + m)) * msPerMinute.
Proof. unfold Date_UTC, todayNumber. apply Date_UTC_minutes. Qed.

Lemma convertTime_constant_offsets (S T : string) (s t h m : Z)
    (lbl : option string) :
  validTimeZone S = true -> validTimeZone T = true ->
  (forall i, zoneOffset S i = s) -> (forall i, zoneOffset T i = t) ->
  -1440 < s < 1440 -> -1440 < t < 1440 ->
  0 <= h <= 23 -> 0 <= m <= 59 ->
  exists r,
    convert h m S T lbl = Ret r /\
    ct_dayOffset r = (60 * h + m - s + t) / 1440 /\
    ct_hours r = (60 * h + m - s + t) mod 1440 / 60 /\
    ct_minutes r = (60 * h + m - s + t) mod 60.
Proof.
  intros HvS HvT HoS HoT Hs Ht Hh Hm. unfold convertTime. cbv zeta.
  rewrite Date_UTC_today.
  set (X := 60 * h + m).
  assert (HX : 0 <= X < 1440) by (unfold X; lia).
  assert (Hdiv : forall Y lo hi, lo * 1440 <= Y < (hi + 1) * 1440 -> lo <= Y / 1440 <= hi).
  { intros Y lo hi HY. split; [apply Z.div_le_lower_bound|apply Z.lt_succ_r, Z.div_lt_upper_bound]; lia. }
  rewrite (getUtcOffsetMinutes_near S s X HvS HoS) by (apply Hdiv; lia).
  cbn [bind].
  rewrite instant_minus_offset.
  rewrite (getUtcOffsetMinutes_near T t (X - s) HvT HoT) by (apply Hdiv; lia).
  cbn [bind].
  rewrite (getDateParts_near S s (X - s) HvS HoS) by (apply Hdiv; lia).
  rewrite (getDateParts_near T t (X - s) HvT HoT) by (apply Hdiv; lia).
  cbn [bind]. unfold getAbbreviation, formatTimeInTz, Intl_DateTimeFormat.
  rewrite HvT. cbn [bind]. eexists. split; [reflexivity|].
  cbn [ct_dayOffset ct_hours ct_minutes day hour minute].
  replace (X - s + s) with X by ring.
  rewrite (Z.div_small X 1440) by lia.
  assert (Hk : -2 <= (X - s + t) / 1440 <= 2) by (apply Hdiv; lia).
  replace (d + (X - s + t) / 1440 - (d + 0)) with ((X - s + t) / 1440) by ring.
  destruct (Z.ltb_spec 15 ((X - s + t) / 1440)); [lia|].
  destruct (Z.ltb_spec ((X - s + t) / 1440) (-15)); [lia|].
  repeat split.
Qed.

(** X2. Away from the ends of the month, converting between two zones of constant
    offset and converting the result back restores the hour and the minute
    and negates the day offset. *)
Theorem convertTime_round_trip_mid_month (A B : string) (a b h m : Z)
    (lbl lbl' : option string) :
  validTimeZone A = true -> validTimeZone B = true ->
  (forall i, zoneOffset A i = a) -> (forall i, zoneOffset B i = b) ->
  -1440 < a < 1440 -> -1440 < b < 1440 ->
  0 <= h <= 23 -> 0 <= m <= 59 ->
  exists forward back,
    convertTime validTimeZone localTimeZone now zoneOffset zoneName localeTime
                h m A B lbl = Ret forward /\
    convert (ct_hours forward) (ct_minutes forward) B A lbl' = Ret back /\
    ct_hours back = h /\ ct_minutes back = m /\
    ct_dayOffset back = - ct_dayOffset forward.
Proof.
  intros HvA HvB HoA HoB Ha Hb Hh Hm.
  destruct (convertTime_constant_offsets A B a b h m lbl)
    as (forward & Hf & Hfd & Hfh & Hfm); try assumption.
  set (X := 60 * h + m) in *. set (X2 := X - a + b) in *.
  assert (HX : 0 <= X < 1440) by (unfold X; lia).
  pose proof (Z.mod_pos_bound X2 1440) as Hr.
  pose proof (Z.mod_pos_bound X2 60) as Hr60.
  pose proof (minutes_split X2) as Hsplit.
  pose proof (Z.div_mod X2 1440) as Hdm.
  assert (Hh' : 0 <= ct_hours forward <= 23).
  { rewrite Hfh. split; [apply Z.div_pos; lia|].
    apply Z.lt_succ_r, Z.div_lt_upper_bound; lia. }
  assert (Hm' : 0 <= ct_minutes forward <= 59) by (rewrite Hfm; lia).
  destruct (convertTime_constant_offsets B A b a (ct_hours forward) (ct_minutes forward) lbl')
    as (back & Hb' & Hbd & Hbh & Hbm); try assumption.
  exists forward, back. split; [exact Hf|]. split; [exact Hb'|].
  assert (Hback : 60 * ct_hours forward + ct_minutes forward - b + a
                  = X + - (X2 / 1440) * 1440)
    by (rewrite Hfh, Hfm; unfold X2 in *; lia).
  rewrite Hback in Hbd, Hbh, Hbm.
  rewrite Z.div_add in Hbd by lia. rewrite Z.mod_add in Hbh by lia.
  replace (- (X2 / 1440) * 1440) with (- (X2 / 1440) * 24 * 60) in Hbm by ring.
  rewrite Z.mod_add in Hbm by lia.
  rewrite (Z.div_small X 1440) in Hbd by lia.
  rewrite (Z.mod_small X 1440) in Hbh by lia.
  rewrite Hbh, Hbm, Hbd, Hfd. unfold X.
  split; [|split; [|lia]].
  - rewrite (Z.mul_comm 60 h), Z.div_add_l by lia. rewrite (Z.div_small m 60) by lia. lia.
  - rewrite Z.add_comm, (Z.mul_comm 60 h), Z.mod_add by lia. apply Z.mod_small. lia.
Qed.

End ConstantOffsets.

(** ** The statements at sample hosts *)

Lemma parseQuery_24h_CET_witness :
  regionHost "CET" = false /\ regionHost "Cet" = false /\
  parseQuery regionHost (formatTime 7 22 ++ " CET") =
  Ret {| timeStr := "7:22"; hours := 7; minutes := 22;
         sourceTimezone := VStr "Europe/Berlin"; sourceLabel := "CET";
         targetTimezone := None; error := None |}.
Proof.
  split; [reflexivity|]. split; [reflexivity|].
  apply (parseQuery_24h_CET regionHost 7 22); lia.
Defined.

Lemma getTargetTimezones_ambiguous_target_witness :
  regionHost "IST" = false /\ regionHost "Ist" = false /\
  exists parsed,
    parseQuery regionHost "7 CET to IST" = Ret parsed /\
    targetTimezone parsed = Some (VStr "Asia/Kolkata") /\
    getTargetTimezones regionHost "Europe/Berlin" parsed "" =
    Ret [localTarget "Europe/Berlin";
         {| ianaId := VStr "Asia/Kolkata"; label := None |}].
Proof.
  split; [reflexivity|]. split; [reflexivity|].
  destruct (getTargetTimezones_ambiguous_target regionHost "Europe/Berlin")
    as (_ & parsed & Hparse & _ & Htarget & Hlist); [reflexivity|reflexivity|].
  exists parsed. split; [exact Hparse|]. split; [exact Htarget|exact Hlist].
Defined.

Lemma resolveTimezone_IST_and_labels_witness :
  regionHost "IST" = false /\ regionHost "Ist" = false /\
  resolveTimezone regionHost "IST" =
    Ret [VStr "Asia/Kolkata"; VStr "Asia/Jerusalem"; VStr "Europe/Dublin"] /\
  JS.toLowerCase "CET" <> "__proto__" /\
  getDisambiguationLabel "Asia/Tokyo" "CET" = None.
Proof.
  destruct (resolveTimezone_IST_and_labels regionHost) as (Hist & _ & Hnone).
  split; [reflexivity|]. split; [reflexivity|].
  split; [apply Hist; reflexivity|].
  split; [discriminate|].
  apply Hnone; [discriminate|].
  intros (zones & Hz & Hlen). vm_compute in Hz. injection Hz as <-.
  cbn in Hlen. lia.
Defined.

Lemma resolveTimezone_inherited_key_witness :
  regionHost "constructor" = false /\ regionHost "Constructor" = false /\
  resolveTimezone regionHost "constructor" = Ret [VProto "constructor"] /\
  resolve_by_precedence regionHost "constructor" = [].
Proof.
  split; [reflexivity|]. split; [reflexivity|].
  apply (resolveTimezone_inherited_key regionHost); reflexivity.
Defined.

Lemma parseQuery_hour_check_first_witness :
  match_TIME_RE (JS.trim "25:61 CET") =
    Some {| m0 := "25:61 "; m1 := "25"; m2 := Some "61"; m3 := None |} /\
  match_TIME_RE (JS.trim "13:75pm CET") =
    Some {| m0 := "13:75pm"; m1 := "13"; m2 := Some "75"; m3 := Some "pm" |} /\
  (exists r, parseQuery regionHost "25:61 CET" = Ret r /\ error r = Some hourError24) /\
  (exists r, parseQuery regionHost "13:75pm CET" = Ret r /\ error r = Some hourError12).
Proof.
  destruct (parseQuery_hour_check_first regionHost) as (_ & _ & Hboth).
  split; [reflexivity|]. split; [reflexivity|]. split.
  - refine (proj2 (Hboth "25:61 CET" _ eq_refl _) eq_refl _); reflexivity.
  - refine (proj1 (Hboth "13:75pm CET" _ eq_refl _) _ _);
      [reflexivity|discriminate|right; reflexivity].
Defined.



Lemma convertTime_round_trip_mid_month_witness :
  let convert := convertTime regionHost "Europe/Berlin" january15 fixedOffset
                             noZoneName noLocaleTime in
  exists forward back,
    convert 23 30 "Asia/Kolkata" "Pacific/Honolulu" None = Ret forward /\
    convert (ct_hours forward) (ct_minutes forward)
            "Pacific/Honolulu" "Asia/Kolkata" None = Ret back /\
    ct_hours back = 23 /\ ct_minutes back = 30 /\
    ct_dayOffset back = - ct_dayOffset forward.
Proof.
  apply (convertTime_round_trip_mid_month regionHost "Europe/Berlin" january15
           fixedOffset noZoneName noLocaleTime 2025 1 15)
    with (a := 330) (b := -600); try reflexivity; try lia.
  intros k Hk.
  assert (k = -2 \/ k = -1 \/ k = 0 \/ k = 1 \/ k = 2) as [->|[->|[->|[->| ->]]]] by lia;
    reflexivity.
Defined.

(** * Further properties *)

(** ** More facts about strings *)

Lemma trimStart_idempotent (s : string) : JS.trimStart (JS.trimStart s) = JS.trimStart s.
Proof.
  induction s as [|c s IH]; cbn; [reflexivity|].
  destruct (JS.isSpace c) eqn:Hc; [exact IH|]. cbn. rewrite Hc. reflexivity.
Qed.

Lemma trimEnd_cons (c : ascii) (r : string) :
  JS.trimEnd (String c r) =
  match JS.trimEnd r with
  | EmptyString => if JS.isSpace c then EmptyString else String c EmptyString
  | String c' r' => String c (String c' r')
  end.
Proof. reflexivity. Qed.

Lemma trimEnd_idempotent (s : string) : JS.trimEnd (JS.trimEnd s) = JS.trimEnd s.
Proof.
  induction s as [|c s IH]; [reflexivity|].
  rewrite trimEnd_cons. destruct (JS.trimEnd s) as [|c' r'] eqn:He.
  - destruct (JS.isSpace c) eqn:Hc; [reflexivity|].
    rewrite trimEnd_cons. cbn. rewrite Hc. reflexivity.
  - rewrite trimEnd_cons, IH. reflexivity.
Qed.

(** Trimming the end leaves a string that starts with no space as it is at
    the start. *)
Lemma trimStart_trimEnd (s : string) :
  JS.trimStart s = s -> JS.trimStart (JS.trimEnd s) = JS.trimEnd s.
Proof.
  destruct s as [|c s]; [reflexivity|]. cbn.
  destruct (JS.isSpace c) eqn:Hc.
  - intros H. exfalso.
    assert (Hlen : forall x, (String.length (JS.trimStart x) <= String.length x)%nat).
    { induction x as [|a x IHx]; cbn; [lia|]. destruct (JS.isSpace a); cbn; lia. }
    specialize (Hlen s). rewrite H in Hlen. cbn in Hlen. lia.
  - intros _. destruct (JS.trimEnd s); cbn; rewrite Hc; reflexivity.
Qed.

Lemma trim_idempotent (s : string) : JS.trim (JS.trim s) = JS.trim s.
Proof.
  unfold JS.trim.
  rewrite (trimStart_trimEnd (JS.trimStart s)) by apply trimStart_idempotent.
  apply trimEnd_idempotent.
Qed.

Lemma trimStart_empty (s : string) : JS.trimStart s = "" <-> blank s = true.
Proof.
  induction s as [|c s IH]; cbn; [tauto|].
  destruct (JS.isSpace c); cbn; [exact IH|]. split; discriminate.
Qed.

Lemma trimEnd_empty (s : string) : JS.trimEnd s = "" <-> blank s = true.
Proof.
  induction s as [|c s IH]; cbn; [tauto|].
  destruct (JS.trimEnd s) eqn:He.
  - destruct (JS.isSpace c); cbn; [tauto|]. split; discriminate.
  - rewrite andb_true_iff. split; [discriminate|]. intros [_ Hb].
    apply IH in Hb. discriminate.
Qed.

Lemma blank_trimStart (s : string) : blank (JS.trimStart s) = blank s.
Proof.
  induction s as [|c s IH]; cbn; [reflexivity|].
  destruct (JS.isSpace c) eqn:Hc; cbn; [exact IH|]. rewrite Hc. reflexivity.
Qed.

Lemma trim_empty (s : string) : JS.trim s = "" <-> blank s = true.
Proof. unfold JS.trim. rewrite trimEnd_empty, blank_trimStart. tauto. Qed.





Section ResolverExtras.

Variable validTimeZone : string -> bool.
Local Abbreviation resolve := (resolveTimezone validTimeZone).

(** X3. White space around the input does not matter. *)
Theorem resolveTimezone_trim (input : string) :
  resolve (JS.trim input) = resolve input.
Proof. unfold resolveTimezone. rewrite trim_idempotent. reflexivity. Qed.


End ResolverExtras.

(** ** More facts about the tables *)

Lemma SHORT_FORM_MAP_keys (k zone : string) :
  SHORT_FORM_MAP !! k = Some zone -> key_ok 0 k = true.
Proof. apply (lookup_forallb (fun k _ => key_ok 0 k)). vm_compute. reflexivity. Qed.

Lemma ABBREVIATION_MAP_keys (k : string) (zones : list string) :
  ABBREVIATION_MAP !! k = Some zones -> key_ok 1 k = true.
Proof. apply (lookup_forallb (fun k _ => key_ok 1 k)). vm_compute. reflexivity. Qed.

Lemma CITY_MAP_keys (k zone : string) :
  CITY_MAP !! k = Some zone -> key_ok 2 k = true.
Proof. apply (lookup_forallb (fun k _ => key_ok 2 k)). vm_compute. reflexivity. Qed.

(** X5. The keys of the three tables are in lower case and no key occurs in two
    tables. *)
Theorem table_keys_lowercase_disjoint (k : string) :
  (is_Some (SHORT_FORM_MAP !! k) \/ is_Some (ABBREVIATION_MAP !! k)
   \/ is_Some (CITY_MAP !! k) -> JS.toLowerCase k = k) /\
  (is_Some (SHORT_FORM_MAP !! k) ->
   ABBREVIATION_MAP !! k = None /\ CITY_MAP !! k = None) /\
  (is_Some (ABBREVIATION_MAP !! k) -> CITY_MAP !! k = None).
Proof.
  assert (Hnone : forall A (o : option A), is_none o = true -> o = None)
    by (intros A []; [discriminate|reflexivity]).
  split; [|split].
  - intros [[z H]|[[z H]|[z H]]];
      [apply SHORT_FORM_MAP_keys in H|apply ABBREVIATION_MAP_keys in H|apply CITY_MAP_keys in H];
      unfold key_ok in H; rewrite !andb_true_iff in H;
      destruct H as [[[[[[H _] _] _] _] _] _]; apply String.eqb_eq, H.
  - intros [z H]. apply SHORT_FORM_MAP_keys in H. unfold key_ok in H.
    rewrite !andb_true_iff in H. destruct H as [[_ Ha] Hc]. cbn in Ha, Hc. auto.
  - intros [z H]. apply ABBREVIATION_MAP_keys in H. unfold key_ok in H.
    rewrite !andb_true_iff in H. destruct H as [_ Hc]. cbn in Hc. auto.
Qed.

Lemma key_ok_elsewhere (own : nat) (k : string) :
  key_ok own k = true ->
  (own <> 0%nat -> SHORT_FORM_MAP !! k = None) /\
  (own <> 1%nat -> ABBREVIATION_MAP !! k = None) /\
  (own <> 2%nat -> CITY_MAP !! k = None).
Proof.
  assert (Hnone : forall A (o : option A), is_none o = true -> o = None)
    by (intros A []; [discriminate|reflexivity]).
  unfold key_ok. rewrite !andb_true_iff, !orb_true_iff, !Nat.eqb_eq.
  intros [[[_ [H0|H0]] [H1|H1]] [H2|H2]]; repeat split; intros; auto; congruence.
Qed.

Section Reachable.

Variable validTimeZone : string -> bool.
Local Abbreviation resolve := (resolveTimezone validTimeZone).

Lemma key_ok_resolve (own : nat) (k : string) :
  key_ok own k = true ->
  validTimeZone k = false -> validTimeZone (titleCase k) = false ->
  resolve k =
  match SHORT_FORM_MAP !! k with
  | Some zone => Ret [VStr zone]
  | None =>
      match ABBREVIATION_MAP !! k with
      | Some zones => Ret (map VStr zones)
      | None =>
          match CITY_MAP !! k with
          | Some zone => Ret [VStr zone]
          | None => Ret []
          end
      end
  end.
Proof.
  intros Hk Hv Hg. unfold key_ok in Hk. rewrite !andb_true_iff in Hk.
  destruct Hk as [[[[[[Hlow Htrim] Hne] Hproto] _] _] _].
  apply String.eqb_eq in Hlow, Htrim. apply truthy_true in Hne.
  apply negb_true_iff in Hproto.
  rewrite resolveTimezone_tables by (rewrite ?Htrim; assumption).
  cbv zeta. rewrite Htrim, Hlow, Hproto. reflexivity.
Qed.

(** X6. Every entry of the three tables is reachable: a key that the host does
    not take for an identifier resolves to the entry's zones, whichever
    table holds it. *)
Theorem resolveTimezone_table_entry (k : string) :
  validTimeZone k = false -> validTimeZone (titleCase k) = false ->
  (forall zone, SHORT_FORM_MAP !! k = Some zone -> resolve k = Ret [VStr zone]) /\
  (forall zones, ABBREVIATION_MAP !! k = Some zones -> resolve k = Ret (map VStr zones)) /\
  (forall zone, CITY_MAP !! k = Some zone -> resolve k = Ret [VStr zone]).
Proof.
  intros Hv Hg. split; [|split].
  - intros zone H. rewrite (key_ok_resolve 0) by eauto using SHORT_FORM_MAP_keys.
    rewrite H. reflexivity.
  - intros zones H. pose proof (ABBREVIATION_MAP_keys _ _ H) as Hk.
    destruct (key_ok_elsewhere _ _ Hk) as (Hs & _ & _).
    rewrite (key_ok_resolve 1) by assumption.
    rewrite Hs, H by discriminate. reflexivity.
  - intros zone H. pose proof (CITY_MAP_keys _ _ H) as Hk.
    destruct (key_ok_elsewhere _ _ Hk) as (Hs & Ha & _).
    rewrite (key_ok_resolve 2) by assumption.
    rewrite Hs, Ha, H by discriminate. reflexivity.
Qed.

Lemma ABBREVIATION_MAP_ambiguous (k : string) (zones : list string) :
  ABBREVIATION_MAP !! k = Some zones ->
  (length zones <=? 3)%nat
  && ((length zones <=? 1)%nat || existsb (String.eqb k) ambiguousKeys) = true.
Proof.
  apply (lookup_forallb
           (fun k zs => (length zs <=? 3)%nat
                        && ((length zs <=? 1)%nat || existsb (String.eqb k) ambiguousKeys))).
  vm_compute. reflexivity.
Qed.

(** X7. The resolver returns at most three zones, and more than one only for
    the abbreviations CST, AST, BST and IST. *)
Theorem resolveTimezone_ambiguity (input : string) (zones : list jsval) :
  resolve input = Ret zones ->
  (length zones <= 3)%nat /\
  ((1 < length zones)%nat -> In (JS.toLowerCase (JS.trim input)) ambiguousKeys).
Proof.
  destruct (String.eqb_spec (JS.trim input) "") as [He|Hne].
  { rewrite resolveTimezone_blank by exact He. intros [= <-]; cbn; split; lia. }
  destruct (validTimeZone (JS.trim input)) eqn:Hv.
  { rewrite resolveTimezone_exact by assumption. intros [= <-]; cbn; split; lia. }
  rewrite resolveTimezone_stages by assumption.
  assert (HT : tableStages (JS.toLowerCase (JS.trim input)) = Ret zones ->
               (length zones <= 3)%nat /\
               ((1 < length zones)%nat ->
                In (JS.toLowerCase (JS.trim input)) ambiguousKeys)).
  { unfold tableStages.
    destruct (SHORT_FORM_MAP !! _) as [zone|]; [intros [= <-]; cbn; split; lia|].
    destruct (existsb _ Object_prototype_keys); [intros [= <-]; cbn; split; lia|].
    destruct (ABBREVIATION_MAP !! _) as [zs|] eqn:Ha.
    { intros [= <-]. rewrite length_map.
      apply ABBREVIATION_MAP_ambiguous in Ha. apply andb_true_iff in Ha as [H3 H1].
      apply Nat.leb_le in H3. split; [exact H3|]. intros Hlen.
      apply orb_true_iff in H1 as [H1|H1]; [apply Nat.leb_le in H1; lia|].
      apply existsb_exists in H1 as (x & Hx & ->%String.eqb_eq). exact Hx. }
    destruct (CITY_MAP !! _) as [zone|]; intros [= <-]; cbn; split; lia. }
  destruct (titleCaseFrom true (JS.trim input)) as [guess|]; [|exact HT].
  destruct (_ && _); [intros [= <-]; cbn; split; lia|exact HT].
Qed.

(** X8. The resolver never throws, and no zone it returns is the empty
    string. *)
Theorem resolveTimezone_never_throws (input : string) :
  exists zones, resolve input = Ret zones /\ Forall (fun z => truthyVal z = true) zones.
Proof.
  destruct (resolveTimezone_returns validTimeZone input) as [zones H].
  exists zones. split; [exact H|]. apply (resolveTimezone_truthy validTimeZone input), H.
Qed.

End Reachable.

(** ** Disambiguation labels *)

Lemma ABBREVIATION_MAP_named (k : string) (zones : list string) :
  ABBREVIATION_MAP !! k = Some zones ->
  (length zones <=? 1)%nat || forallb named zones = true.
Proof.
  apply (lookup_forallb (fun _ zs => (length zs <=? 1)%nat || forallb named zs)).
  vm_compute. reflexivity.
Qed.

(** X9. Every candidate of an ambiguous abbreviation has a full name, and that
    name is its disambiguation label under the abbreviation in any letter
    case. *)
Theorem getDisambiguationLabel_candidates (label : string) (zones : list string)
    (zone : string) :
  ABBREVIATION_MAP !! JS.toLowerCase label = Some zones ->
  (1 < length zones)%nat -> In zone zones ->
  exists name,
    TIMEZONE_FULL_NAMES !! zone = Some name /\ name <> "" /\
    getDisambiguationLabel zone label = Some (VStr name).
Proof.
  intros Hz Hlen Hin. pose proof (ABBREVIATION_MAP_named _ _ Hz) as Hn.
  apply orb_true_iff in Hn as [Hn|Hn]; [apply Nat.leb_le in Hn; lia|].
  rewrite forallb_forall in Hn. specialize (Hn zone Hin). unfold named in Hn.
  destruct (TIMEZONE_FULL_NAMES !! zone) as [name|] eqn:Hname; [|discriminate].
  exists name. split; [reflexivity|]. split; [apply truthy_true, Hn|].
  unfold getDisambiguationLabel. cbv zeta.
  rewrite (proj2 (obj_get_own ABBREVIATION_MAP _ zones) Hz).
  rewrite (proj2 (obj_get_own TIMEZONE_FULL_NAMES _ name) Hname), Hn.
  destruct (Z.leb_spec (Z.of_nat (length zones)) 1); [lia|reflexivity].
Qed.

(** ** The patterns *)

Lemma match_TIME_RE_None (s : string) :
  match_TIME_RE s = None <-> startsWithDigit s = false.
Proof.
  destruct s as [|c r]; cbn; [tauto|].
  destruct (JS.isDigit c); [|tauto].
  repeat match goal with
         | |- context [let '(_, _) := ?p in _] => destruct p
         end.
  split; discriminate.
Qed.

Lemma slice_split (n : nat) (s : string) :
  (JS.sliceTo n s ++ JS.sliceFrom n s)%string = s.
Proof.
  revert s. induction n as [|n IH]; intros [|c s]; cbn; try reflexivity.
  rewrite append_cons, IH. reflexivity.
Qed.

Lemma sliceTo_length (n : nat) (s : string) :
  (n <= String.length s)%nat -> String.length (JS.sliceTo n s) = n.
Proof.
  revert s. induction n as [|n IH]; intros [|c s]; cbn; try lia.
  intros H. rewrite IH; lia.
Qed.

Lemma parseInt_digit (c : ascii) :
  JS.isDigit c = true -> 0 <= JS.parseInt (String c "") <= 9.
Proof.
  intros H. unfold JS.parseInt. cbn [JS.parseDigits]. rewrite H.
  unfold JS.isDigit in H. lia.
Qed.

Lemma parseInt_two_digits (c d : ascii) :
  JS.isDigit c = true -> JS.isDigit d = true -> 0 <= JS.parseInt (str2 c d) <= 99.
Proof.
  intros Hc Hd. unfold JS.parseInt, str2. cbn [JS.parseDigits]. rewrite Hc, Hd.
  unfold JS.isDigit in Hc, Hd. lia.
Qed.

(** X10. A time match consumes a non-empty prefix of the input; the hour group
    is below 100 and so is the minute group. *)
Theorem match_TIME_RE_prefix (s : string) (tm : TimeMatch) :
  match_TIME_RE s = Some tm ->
  (m0 tm ++ JS.sliceFrom (String.length (m0 tm)) s)%string = s /\
  m0 tm <> "" /\
  0 <= JS.parseInt (m1 tm) <= 99 /\
  (forall mm, m2 tm = Some mm -> 0 <= JS.parseInt mm <= 99).
Proof.
  destruct s as [|c1 r1]; [discriminate|]. unfold match_TIME_RE.
  destruct (JS.isDigit c1) eqn:H1; [|discriminate].
  set (first := match r1 with
                | String c2 r2 => if JS.isDigit c2 then (str2 c1 c2, r2) else (String c1 "", r1)
                | EmptyString => (String c1 "", r1)
                end).
  assert (Hfirst : 0 <= JS.parseInt (fst first) <= 99
                   /\ (String.length (snd first) <= String.length r1)%nat).
  { subst first. destruct r1 as [|c2 r2]; cbn [fst snd].
    - pose proof (parseInt_digit c1 H1). split; [lia|cbn [String.length]; lia].
    - destruct (JS.isDigit c2) eqn:H2; cbn [fst snd].
      + pose proof (parseInt_two_digits c1 c2 H1 H2). split; [lia|cbn [String.length]; lia].
      + pose proof (parseInt_digit c1 H1). split; [lia|cbn [String.length]; lia]. }
  destruct first as [g1 ra]. cbn [fst snd] in Hfirst. destruct Hfirst as [Hg1 Hra].
  set (second := match ra with
                 | String p (String d1 (String d2 r3)) =>
                     if (Ascii.eqb p ":" || Ascii.eqb p ".") && JS.isDigit d1 && JS.isDigit d2
                     then (Some (str2 d1 d2), r3) else (None, ra)
                 | _ => (None, ra)
                 end).
  assert (Hsecond : (forall mm, fst second = Some mm -> 0 <= JS.parseInt mm <= 99)
                    /\ (String.length (snd second) <= String.length ra)%nat).
  { subst second. destruct ra as [|p [|d1 [|d2 r3]]]; cbn [fst snd];
      try (split; [discriminate|lia]).
    destruct (_ && _) eqn:Hc; cbn [fst snd]; [|split; [discriminate|lia]].
    rewrite !andb_true_iff in Hc. destruct Hc as [[_ Hd1] Hd2].
    split; [|cbn [String.length]; lia]. intros mm [= <-]. apply parseInt_two_digits; assumption. }
  destruct second as [g2 rb]. cbn [fst snd] in Hsecond. destruct Hsecond as [Hg2 Hrb].
  assert (Hts : forall x, (String.length (JS.trimStart x) <= String.length x)%nat).
  { induction x as [|a x IHx]; cbn; [lia|]. destruct (JS.isSpace a); cbn; lia. }
  set (third := match JS.trimStart rb with
                | String a (String m r4) =>
                    if (Ascii.eqb (JS.lowerChar a) "a" || Ascii.eqb (JS.lowerChar a) "p")
                       && Ascii.eqb (JS.lowerChar m) "m"
                    then (Some (str2 a m), r4) else (None, JS.trimStart rb)
                | _ => (None, JS.trimStart rb)
                end).
  assert (Hthird : (String.length (snd third) <= String.length rb)%nat).
  { subst third. specialize (Hts rb).
    destruct (JS.trimStart rb) as [|a [|m r4]]; cbn [snd]; try lia.
    destruct (_ && _); cbn [snd]; cbn [String.length] in *; lia. }
  destruct third as [g3 rc]. cbn [snd] in Hthird.
  intros [= <-]. cbn [m0 m1 m2].
  split; [rewrite sliceTo_length by (cbn [String.length]; lia); apply slice_split|].
  split; [|split; assumption].
  replace (S (String.length r1) - String.length rc)%nat
    with (S (String.length r1 - String.length rc)) by lia.
  cbn [JS.sliceTo]. intros [=].
Qed.

Lemma search_TO_RE_after_word (i : nat) (s : string) :
  allWord s = true -> search_TO_RE_from true i s = None.
Proof.
  revert i. induction s as [|c s IH]; intros i; [reflexivity|]. cbn.
  intros [Hc Hs]%andb_true_iff. rewrite Hc. apply IH, Hs.
Qed.

(** X11. A phrase of word characters only is split at the separator only if it
    is the word "to" itself: a "to" inside a word separates nothing. *)
Theorem search_TO_RE_one_word (s : string) :
  allWord s = true ->
  search_TO_RE s = if String.eqb (JS.toLowerCase s) "to" then Some 0%nat else None.
Proof.
  unfold search_TO_RE. destruct s as [|c s]; [reflexivity|].
  intros [Hc Hs]%andb_true_iff. cbn [search_TO_RE_from negb andb].
  rewrite Hc, (search_TO_RE_after_word _ _ Hs).
  cbn [JS.toLowerCase JS.mapChars String.eqb].
  destruct (Ascii.eqb (JS.lowerChar c) "t"); [|reflexivity]. cbn [andb].
  destruct s as [|o s]; [reflexivity|]. cbn [JS.mapChars String.eqb].
  destruct (Ascii.eqb (JS.lowerChar o) "o"); [|reflexivity]. cbn [andb].
  destruct s as [|x s]; [reflexivity|].
  cbn in Hs. rewrite andb_true_iff in Hs. destruct Hs as [_ Hx].
  apply andb_true_iff in Hx as [Hx _]. rewrite Hx. reflexivity.
Qed.

Lemma search_TO_RE_from_sound (prevWord : bool) (i j : nat) (s : string) :
  search_TO_RE_from prevWord i s = Some j ->
  exists before t o after,
    s = (before ++ String t (String o after))%string /\
    j = (i + String.length before)%nat /\
    JS.lowerChar t = "t"%char /\ JS.lowerChar o = "o"%char /\
    (if JS.truthy before then endsWithWord before else prevWord) = false /\
    startsWithWord after = false.
Proof.
  revert prevWord i. induction s as [|c s IH]; intros prevWord i; [discriminate|].
  cbn [search_TO_RE_from].
  destruct (negb prevWord && Ascii.eqb (JS.lowerChar c) "t" && _) eqn:Hhere.
  - intros [= <-]. rewrite !andb_true_iff in Hhere. destruct Hhere as [[Hp Ht] Ho].
    destruct s as [|o s]; [discriminate|]. apply andb_true_iff in Ho as [Ho Hafter].
    exists "", c, o, s. split; [reflexivity|]. split; [cbn; lia|].
    split; [apply Ascii.eqb_eq, Ht|]. split; [apply Ascii.eqb_eq, Ho|].
    split; [cbn; apply negb_true_iff, Hp|].
    destruct s; [reflexivity|]. cbn. apply negb_true_iff, Hafter.
  - intros H. apply IH in H as (before & t & o & after & -> & -> & Ht & Ho & Hb & Ha).
    exists (String c before), t, o, after.
    split; [reflexivity|]. split; [cbn; lia|]. split; [exact Ht|]. split; [exact Ho|].
    split; [|exact Ha]. cbn [JS.truthy endsWithWord].
    destruct before; [exact Hb|exact Hb].
Qed.

(** X12. The separator is found at a "to", in either letter case, that follows
    no word character and is followed by none. *)
Theorem search_TO_RE_sound (s : string) (index : nat) :
  search_TO_RE s = Some index ->
  exists before t o after,
    s = (before ++ String t (String o after))%string /\
    index = String.length before /\
    JS.toLowerCase (String t (String o "")) = "to" /\
    endsWithWord before = false /\ startsWithWord after = false.
Proof.
  intros H. apply search_TO_RE_from_sound in H
    as (before & t & o & after & -> & -> & Ht & Ho & Hb & Ha).
  exists before, t, o, after. split; [reflexivity|]. split; [reflexivity|].
  split; [cbn; rewrite Ht, Ho; reflexivity|]. split; [|exact Ha].
  destruct before; [reflexivity|exact Hb].
Qed.

(** One step of the case analysis that follows the branches of
    [parseQuery]: innermost scrutinee first. *)
Ltac parse_step host :=
  match goal with
  | |- context [resolveTimezone host ?p] =>
      let zs := fresh "zs" in
      destruct (resolveTimezone_returns host p) as [zs ->]; cbn [bind]
  | |- context [let '(_, _) := ?p in _] => destruct p
  | |- context [if ?b then _ else _] =>
      lazymatch b with
      | context [match _ with _ => _ end] => fail
      | _ => destruct b eqn:?
      end
  | |- context [match ?x with _ => _ end] =>
      lazymatch x with
      | context [match _ with _ => _ end] => fail
      | _ => destruct x eqn:?
      end
  end.

Section ParserExtras.

Variable validTimeZone : string -> bool.
Local Abbreviation resolve := (resolveTimezone validTimeZone).
Local Abbreviation parse := (parseQuery validTimeZone).

(** X13. White space around the query does not matter. *)
Theorem parseQuery_trim (query : string) : parse (JS.trim query) = parse query.
Proof. unfold parseQuery. rewrite trim_idempotent. reflexivity. Qed.

(** X14. A blank query is the empty-query error; a query that does not start
    with a digit after trimming is the time-format error; and a query that
    does start with a digit is neither. *)
Theorem parseQuery_without_time (query : string) :
  (blank query = true ->
   parse query = Ret (failed "" 0 0 (VStr "") "" emptyQueryError)) /\
  (blank query = false -> startsWithDigit (JS.trim query) = false ->
   parse query = Ret (failed "" 0 0 (VStr "") "" timeFormatError)) /\
  (startsWithDigit (JS.trim query) = true ->
   exists r, parse query = Ret r /\ error r <> Some emptyQueryError
             /\ error r <> Some timeFormatError).
Proof.
  split; [|split].
  - intros Hb. unfold parseQuery. rewrite (proj2 (trim_empty query) Hb). reflexivity.
  - intros Hb Hd. unfold parseQuery.
    destruct (JS.trim query) eqn:Ht; [apply trim_empty in Ht; congruence|].
    rewrite <- Ht in *. rewrite Ht at 1. cbn [JS.truthy negb].
    rewrite (proj2 (match_TIME_RE_None _) Hd). reflexivity.
  - intros Hd. unfold parseQuery.
    destruct (JS.trim query) as [|c rest] eqn:Ht; [discriminate Hd|]. cbn [JS.truthy negb].
    destruct (match_TIME_RE (String c rest)) as [tm|] eqn:Hm;
      [|apply match_TIME_RE_None in Hm; congruence].
    cbv zeta.
    repeat parse_step validTimeZone;
      eexists; (split; [reflexivity|]); cbn [error failed]; split; discriminate.
Qed.

End ParserExtras.

(** Case analysis on an integer [x] with [0 <= x < n]; cases that contradict
    the hypotheses are closed. *)
Ltac cases_nat k n :=
  lazymatch n with
  | O => exfalso; lia
  | S ?n' => destruct k as [|k]; [try (exfalso; lia)|cases_nat k n']
  end.

Ltac cases_below x n :=
  let k := fresh "k" in
  assert (exists k' : nat, x = Z.of_nat k') as [k ->]
    by (exists (Z.to_nat x); lia);
  let n' := eval compute in n in cases_nat k n'.

(** X15. [formatTime] writes a time that the time pattern reads back whole, with
    the same hour and minute. *)
Theorem formatTime_match_TIME_RE (H MM : Z) :
  0 <= H <= 23 -> 0 <= MM <= 59 ->
  match_TIME_RE (formatTime H MM) =
    Some {| m0 := formatTime H MM; m1 := JS.ofNumber H;
            m2 := Some (JS.padStart2 (JS.ofNumber MM)); m3 := None |} /\
  JS.parseInt (JS.ofNumber H) = H /\
  JS.parseInt (JS.padStart2 (JS.ofNumber MM)) = MM.
Proof.
  intros HH HMM. cases_below H 24%nat; cases_below MM 60%nat;
    vm_compute; repeat split; reflexivity.
Qed.

Section ParserExtras2.

Variable validTimeZone : string -> bool.
Local Abbreviation resolve := (resolveTimezone validTimeZone).
Local Abbreviation parse := (parseQuery validTimeZone).

Ltac parse_step_eq :=
  match goal with
  | |- context [resolveTimezone validTimeZone ?p] =>
      let zs := fresh "zs" in
      let Hzs := fresh "Hzs" in
      destruct (resolveTimezone_returns validTimeZone p) as [zs Hzs];
      rewrite Hzs; cbn [bind]
  | |- context [let '(_, _) := ?p in _] => destruct p
  | |- context [if ?b then _ else _] =>
      lazymatch b with
      | context [match _ with _ => _ end] => fail
      | _ => destruct b eqn:?
      end
  | |- context [match ?x with _ => _ end] =>
      lazymatch x with
      | context [match _ with _ => _ end] => fail
      | _ => destruct x eqn:?
      end
  end.

(** X16. A failed parse carries one of eight messages and never a target zone;
    it carries a source zone only when the target phrase is the unknown
    one, and a source phrase only when a phrase is unknown. *)
Theorem parseQuery_failures (query : string) :
  exists r, parse query = Ret r /\
    match error r with
    | None => True
    | Some e =>
        targetTimezone r = None /\
        ((In e plainErrors /\ sourceTimezone r = VStr "" /\ sourceLabel r = "") \/
         (e = unknownTimezone (sourceLabel r) /\ sourceTimezone r = VStr ""
          /\ sourceLabel r <> "") \/
         (exists phrase, e = unknownTarget phrase /\ phrase <> ""
                         /\ sourceTimezone r <> VStr "" /\ sourceLabel r <> ""))
    end.
Proof.
  unfold parseQuery. cbv zeta.
  repeat parse_step_eq;
    eexists; (split; [reflexivity|]);
    cbn [error failed targetTimezone sourceTimezone sourceLabel];
    try exact I; (split; [reflexivity|]); subst;
    lazymatch goal with
    | |- (In ("Unknown timezone: " ++ _)%string _ /\ _) \/ _ =>
        right; left; split; [reflexivity|]; split; [reflexivity|];
        apply truthy_true;
        match goal with H : negb _ = false |- _ => apply negb_false_iff in H; exact H end
    | |- (In ("Unknown target timezone: " ++ _)%string _ /\ _) \/ _ =>
        right; right; eexists; split; [reflexivity|];
        split; [apply truthy_true; assumption|]; split;
        [ apply truthyVal_not_empty;
          match goal with H : resolveTimezone _ ?p = Ret (?z :: _) |- truthyVal ?z = _ =>
            apply resolveTimezone_truthy in H; inversion H; assumption end
        | apply truthy_true;
          match goal with H : negb _ = false |- _ => apply negb_false_iff in H; exact H end ]
    | |- _ =>
        left; split; [cbn [plainErrors In]; repeat (first [left; reflexivity|right])
                     |split; reflexivity]
    end.
Qed.

(** X17. The 12-hour clock: with a meridiem, hour 12 is 0 in the morning and 12
    in the afternoon, and every other hour H is H in the morning and H + 12
    in the afternoon. *)
Theorem parseQuery_12h_CET (H MM : Z) :
  validTimeZone "CET" = false -> validTimeZone "Cet" = false ->
  1 <= H <= 12 -> 0 <= MM <= 59 ->
  parse (formatTime H MM ++ "am CET") =
    Ret {| timeStr := formatTime H MM ++ "am";
           hours := if H =? 12 then 0 else H; minutes := MM;
           sourceTimezone := VStr "Europe/Berlin"; sourceLabel := "CET";
           targetTimezone := None; error := None |} /\
  parse (formatTime H MM ++ "pm CET") =
    Ret {| timeStr := formatTime H MM ++ "pm";
           hours := if H =? 12 then 12 else H + 12; minutes := MM;
           sourceTimezone := VStr "Europe/Berlin"; sourceLabel := "CET";
           targetTimezone := None; error := None |}.
Proof.
  intros Hcet Hcet' HH HMM.
  cases_below H 13%nat; cases_below MM 60%nat;
    split; vm_compute; rewrite Hcet, Hcet'; reflexivity.
Qed.

(** X18. A time with nothing after it, or with nothing before the separator,
    lacks its source zone, on every host. *)
Theorem parseQuery_time_only (H MM : Z) :
  0 <= H <= 23 -> 0 <= MM <= 59 ->
  parse (formatTime H MM) =
    Ret (failed (formatTime H MM) H MM (VStr "") "" missingSourceError) /\
  parse (formatTime H MM ++ " to CET") =
    Ret (failed (formatTime H MM) H MM (VStr "") "" missingSourceError).
Proof.
  intros HH HMM. cases_below H 24%nat; cases_below MM 60%nat;
    split; vm_compute; reflexivity.
Qed.

End ParserExtras2.

(** ** The calendar *)

Lemma all_from_spec (fuel : nat) (z : Z) (f : Z -> bool) :
  all_from fuel z f = true ->
  forall x, z <= x < z + Z.of_nat fuel -> f x = true.
Proof.
  revert z. induction fuel as [|n IH]; intros z Hall x Hx; [lia|].
  cbn [all_from] in Hall. apply andb_true_iff in Hall as [Hz Hrest].
  destruct (Z.eq_dec x z) as [->|Hne]; [exact Hz|].
  apply (IH (z + 1) Hrest). lia.
Qed.

Lemma civil_ok_cycle :
  all_from (Z.to_nat 146097) (-719468) civil_ok = true.
Proof. vm_compute. reflexivity. Qed.

Lemma civil_from_days_shift (z k : Z) :
  civil_from_days (z + k * 146097) =
  let '(y, m, d) := civil_from_days z in (y + k * 400, m, d).
Proof.
  unfold civil_from_days. cbv zeta.
  replace (z + k * 146097 + 719468) with (z + 719468 + k * 146097) by ring.
  rewrite Z.div_add by lia.
  set (era := (z + 719468) / 146097).
  replace (z + 719468 + k * 146097 - (era + k) * 146097)
    with (z + 719468 - era * 146097) by ring.
  set (doe := z + 719468 - era * 146097).
  set (yoe := (doe - doe / 1460 + doe / 36524 - doe / 146096) / 365).
  set (doy := doe - (365 * yoe + yoe / 4 - yoe / 100)).
  set (mp := (5 * doy + 2) / 153).
  replace (yoe + (era + k) * 400) with (yoe + era * 400 + k * 400) by ring.
  destruct (_ <=? 2); [|reflexivity].
  replace (yoe + era * 400 + k * 400 + 1) with (yoe + era * 400 + 1 + k * 400) by ring.
  reflexivity.
Qed.

Lemma days_from_civil_shift (y m d k : Z) :
  days_from_civil (y + k * 400) m d = days_from_civil y m d + k * 146097.
Proof.
  unfold days_from_civil. cbv zeta.
  set (y' := if m <=? 2 then y - 1 else y).
  replace (if m <=? 2 then y + k * 400 - 1 else y + k * 400) with (y' + k * 400)
    by (subst y'; destruct (m <=? 2); ring).
  rewrite Z.div_add by lia.
  replace (y' + k * 400 - (y' / 400 + k) * 400) with (y' - y' / 400 * 400) by ring.
  ring.
Qed.

Lemma civil_ok_all (z : Z) : civil_ok z = true.
Proof.
  pose proof (Z.div_mod (z + 719468) 146097 ltac:(lia)) as Hdm.
  pose proof (Z.mod_pos_bound (z + 719468) 146097 ltac:(lia)) as Hb.
  set (k := (z + 719468) / 146097) in *. set (r := (z + 719468) mod 146097) in *.
  assert (Hr : civil_ok (r - 719468) = true).
  { apply (all_from_spec _ _ _ civil_ok_cycle). lia. }
  replace z with (r - 719468 + k * 146097) by lia.
  unfold civil_ok in *.
  replace (r - 719468 + k * 146097 + 1) with (r - 719468 + 1 + k * 146097) by ring.
  rewrite !civil_from_days_shift.
  destruct (civil_from_days (r - 719468)) as [[y m] d].
  destruct (civil_from_days (r - 719468 + 1)) as [[y' m'] d'].
  rewrite days_from_civil_shift.
  rewrite !andb_true_iff in *. destruct Hr as [[Hf He] Hn].
  split; [split; [exact Hf|]|].
  - apply Z.eqb_eq in He. apply Z.eqb_eq. lia.
  - destruct (d' =? 1); [exact Hn|].
    rewrite !andb_true_iff, !Z.eqb_eq in *. lia.
Qed.

(** The date of every day number has a month in 1..12 and a day in 1..31. *)
Lemma civil_from_days_fields (z y m d : Z) :
  civil_from_days z = (y, m, d) -> 1 <= m <= 12 /\ 1 <= d <= 31.
Proof.
  intros H. pose proof (civil_ok_all z) as Hok. unfold civil_ok in Hok. rewrite H in Hok.
  destruct (civil_from_days (z + 1)) as [[y' m'] d'].
  rewrite !andb_true_iff in Hok. lia.
Qed.

(** The day number of the date of a day number is that day number. *)
Lemma days_from_civil_from_days (z y m d : Z) :
  civil_from_days z = (y, m, d) -> days_from_civil y m d = z.
Proof.
  intros H. pose proof (civil_ok_all z) as Hok. unfold civil_ok in Hok. rewrite H in Hok.
  destruct (civil_from_days (z + 1)) as [[y' m'] d'].
  rewrite !andb_true_iff in Hok. lia.
Qed.

(** The day after a day before the 28th is the next day of the month. *)
Lemma civil_from_days_succ (z y m d : Z) :
  civil_from_days z = (y, m, d) -> d <= 27 -> civil_from_days (z + 1) = (y, m, d + 1).
Proof.
  intros H Hd. pose proof (civil_ok_all z) as Hok. unfold civil_ok in Hok. rewrite H in Hok.
  destruct (civil_from_days (z + 1)) as [[y' m'] d'].
  apply andb_true_iff in Hok as [_ Hn].
  destruct (d' =? 1); [lia|].
  rewrite !andb_true_iff, !Z.eqb_eq in Hn. destruct Hn as [[-> ->] ->]. reflexivity.
Qed.

(** The day before a day after the first is the day before of the month. *)
Lemma civil_from_days_pred (z y m d : Z) :
  civil_from_days z = (y, m, d) -> 2 <= d -> civil_from_days (z - 1) = (y, m, d - 1).
Proof.
  intros H Hd. pose proof (civil_ok_all (z - 1)) as Hok. unfold civil_ok in Hok.
  replace (z - 1 + 1) with z in Hok by ring. rewrite H in Hok.
  destruct (civil_from_days (z - 1)) as [[y' m'] d'].
  apply andb_true_iff in Hok as [_ Hn].
  destruct (Z.eqb_spec d 1); [lia|].
  rewrite !andb_true_iff, !Z.eqb_eq in Hn. destruct Hn as [[-> ->] ->].
  f_equal. ring.
Qed.

(** From the 3rd to the 26th, the two days before and the two days after
    lie in the same month. *)
Lemma civil_from_days_near (z y m d k : Z) :
  civil_from_days z = (y, m, d) -> 3 <= d <= 26 -> -2 <= k <= 2 ->
  civil_from_days (z + k) = (y, m, d + k).
Proof.
  intros Hz Hd Hk.
  pose proof (civil_from_days_succ _ _ _ _ Hz ltac:(lia)) as H1.
  pose proof (civil_from_days_succ _ _ _ _ H1 ltac:(lia)) as H2.
  pose proof (civil_from_days_pred _ _ _ _ Hz ltac:(lia)) as H1'.
  pose proof (civil_from_days_pred _ _ _ _ H1' ltac:(lia)) as H2'.
  assert (k = -2 \/ k = -1 \/ k = 0 \/ k = 1 \/ k = 2) as [->|[->|[->|[->| ->]]]] by lia.
  - replace (z + -2) with (z - 1 - 1) by ring. rewrite H2'. f_equal. ring.
  - exact H1'.
  - rewrite !Z.add_0_r. exact Hz.
  - exact H1.
  - replace (z + 2) with (z + 1 + 1) by ring. rewrite H2. f_equal. ring.
Qed.

(** Within one month the day number grows with the day of the month. *)
Lemma days_from_civil_day (y m d d' : Z) :
  days_from_civil y m d' - days_from_civil y m d = d' - d.
Proof. unfold days_from_civil. cbv zeta. ring. Qed.

Lemma todayNumber_now (now : Z) : todayNumber now = now / msPerDay.
Proof.
  unfold todayNumber, getUTCFullYear, getUTCMonth, getUTCDate.
  destruct (civil_from_days (now / msPerDay)) as [[y m] d] eqn:H. cbn [fst snd].
  replace (m - 1 + 1) with m by ring. apply days_from_civil_from_days, H.
Qed.

Section DateParts.

Variable validTimeZone : string -> bool.
Variable zoneOffset : string -> Z -> Z.

Local Abbreviation parts := (getDateParts validTimeZone zoneOffset).

Lemma getDateParts_range (date : Z) (timeZone : string) (p : DateParts) :
  parts date timeZone = Ret p ->
  1 <= month p <= 12 /\ 1 <= day p <= 31 /\ 0 <= hour p <= 23 /\ 0 <= minute p <= 59.
Proof.
  unfold getDateParts, Intl_DateTimeFormat.
  destruct (validTimeZone timeZone); [|discriminate]. cbn [bind]. cbv zeta.
  destruct (civil_from_days _) as [[y m] d] eqn:Hc. intros [= <-].
  cbn [month day hour minute].
  apply civil_from_days_fields in Hc.
  pose proof (Z.mod_pos_bound ((date + zoneOffset timeZone date * msPerMinute) mod msPerDay / msPerHour) 24).
  pose proof (Z.mod_pos_bound ((date + zoneOffset timeZone date * msPerMinute) mod msPerDay / msPerMinute) 60).
  lia.
Qed.

(** X19. For a wall-clock instant from 1970 on, where the calendar of [Intl] is
    the calendar of [Date]: the fields of [getDateParts] are a date and a
    time of day, whatever the host's offset is, and read as the fields of a
    UTC date they give the instant moved by the zone's offset, cut to the
    minute. *)
Theorem getDateParts_round_trip (date : Z) (timeZone : string) (p : DateParts) :
  0 <= date + zoneOffset timeZone date * msPerMinute ->
  parts date timeZone = Ret p ->
  1 <= month p <= 12 /\ 1 <= day p <= 31 /\ 0 <= hour p <= 23 /\ 0 <= minute p <= 59 /\
  Date_UTC (year p) (month p - 1) (day p) (hour p) (minute p) =
    (date + zoneOffset timeZone date * msPerMinute) / msPerMinute * msPerMinute.
Proof.
  intros _ H. pose proof (getDateParts_range _ _ _ H) as Hf.
  repeat (split; [tauto|]). clear Hf.
  unfold getDateParts, Intl_DateTimeFormat in H.
  destruct (validTimeZone timeZone); [|discriminate]. cbn [bind] in H. cbv zeta in H.
  revert H. generalize (date + zoneOffset timeZone date * msPerMinute). intros W H.
  destruct (civil_from_days _) as [[y m] d] eqn:Hc. injection H as <-.
  cbn [year month day hour minute]. unfold Date_UTC.
  replace (m - 1 + 1) with m by ring.
  rewrite (days_from_civil_from_days _ _ _ _ Hc).
  unfold msPerDay, msPerHour, msPerMinute.
  pose proof (Z.div_mod W 86400000 ltac:(lia)) as Hq.
  pose proof (Z.mod_pos_bound W 86400000 ltac:(lia)) as Hr.
  revert Hq Hr. generalize (W / 86400000) (W mod 86400000). intros q r Hq Hr.
  assert (Hh : (r / 3600000) mod 24 = r / 3600000).
  { apply Z.mod_small. split; [apply Z.div_pos; lia|apply Z.div_lt_upper_bound; lia]. }
  rewrite Hh.
  assert (Ha : r / 3600000 = r / 60000 / 60) by (rewrite Z.div_div by lia; reflexivity).
  pose proof (Z.div_mod (r / 60000) 60 ltac:(lia)) as Hm.
  assert (HW : W / 60000 = q * 1440 + r / 60000).
  { rewrite Hq. replace (86400000 * q + r) with (r + q * 1440 * 60000) by ring.
    rewrite Z.div_add by lia. ring. }
  rewrite HW, Ha. lia.
Qed.

End DateParts.

Section ConversionExtras.

Variable validTimeZone : string -> bool.
Variable localTimeZone : string.
Variable now : Z.
Variable zoneOffset : string -> Z -> Z.
Variable zoneName : string -> Z -> string.
Variable localeTime : string -> Z -> string.

Local Abbreviation parts := (getDateParts validTimeZone zoneOffset).
Local Abbreviation offsetMinutes := (getUtcOffsetMinutes validTimeZone zoneOffset).
Local Abbreviation convert :=
  (convertTime validTimeZone localTimeZone now zoneOffset zoneName localeTime).

(** X20. For a time of day, [convertTime] returns exactly when the host knows
    UTC, the source zone and the target zone; otherwise the host's range
    error escapes. *)
Theorem convertTime_returns (h m : Z) (source target : string) (lbl : option string) :
  0 <= h <= 23 -> 0 <= m <= 59 ->
  (exists r, convertTime validTimeZone localTimeZone now zoneOffset zoneName localeTime
               h m source target lbl = Ret r) <->
  validTimeZone "UTC" = true /\ validTimeZone source = true /\ validTimeZone target = true.
Proof.
  intros _ _.
  unfold convertTime, getUtcOffsetMinutes, getAbbreviation, formatTimeInTz,
    getDateParts, Intl_DateTimeFormat. cbv zeta.
  destruct (validTimeZone "UTC"); cbn [bind];
    [|split; [intros [r H]; discriminate H|intros (H & _); discriminate H]].
  repeat match goal with
         | |- context [let '(_, _) := ?p in _] => destruct p as [[? ?] ?]; cbn [bind]
         end.
  destruct (validTimeZone source); cbn [bind];
    [|split; [intros [r H]; discriminate H|intros (_ & H & _); discriminate H]].
  repeat match goal with
         | |- context [let '(_, _) := ?p in _] => destruct p as [[? ?] ?]; cbn [bind]
         end.
  destruct (validTimeZone target); cbn [bind];
    [|split; [intros [r H]; discriminate H|intros (_ & _ & H); discriminate H]].
  repeat match goal with
         | |- context [let '(_, _) := ?p in _] => destruct p as [[? ?] ?]; cbn [bind]
         end.
  split; [auto|]. intros _. eexists. reflexivity.
Qed.

(** X21. Whatever the host's offsets are, a converted time is a time of day and
    its day offset lies between -15 and 15. *)
Theorem convertTime_fields (h m : Z) (source target : string) (lbl : option string)
    (r : ConvertedTime) :
  convert h m source target lbl = Ret r ->
  0 <= ct_hours r <= 23 /\ 0 <= ct_minutes r <= 59 /\ -15 <= ct_dayOffset r <= 15 /\
  ct_ianaId r = target /\ ct_label r = lbl.
Proof.
  unfold convertTime. cbv zeta.
  destruct (offsetMinutes source _) as [so|]; [cbn [bind]|discriminate].
  destruct (offsetMinutes target _) as [to|]; [cbn [bind]|discriminate].
  destruct (parts _ source) as [sp|] eqn:Hs; [cbn [bind]|discriminate].
  destruct (parts _ target) as [tp|] eqn:Ht; [cbn [bind]|discriminate].
  destruct (getAbbreviation _ _ _ _) as [ab|]; [cbn [bind]|discriminate].
  destruct (formatTimeInTz _ _ _ _) as [ft|]; [cbn [bind]|discriminate].
  intros [= <-]. cbn [ct_hours ct_minutes ct_dayOffset ct_ianaId ct_label].
  apply getDateParts_range in Hs, Ht.
  destruct (Z.ltb_spec 15 (day tp - day sp));
    match goal with |- context [?a <? -15] => destruct (Z.ltb_spec a (-15)) end;
    repeat split; lia.
Qed.

(** X22. The offset that [getUtcOffsetMinutes] computes is the zone's offset
    whenever the zone's date and the UTC date fall in the same month of the
    same year. *)
Theorem getUtcOffsetMinutes_same_month (tz : string) (M : Z) (u z : DateParts) :
  validTimeZone "UTC" = true -> zoneOffset "UTC" (M * msPerMinute) = 0 ->
  parts (M * msPerMinute) "UTC" = Ret u ->
  parts (M * msPerMinute) tz = Ret z ->
  year z = year u -> month z = month u ->
  offsetMinutes tz (M * msPerMinute) = Ret (zoneOffset tz (M * msPerMinute)).
Proof.
  intros Hutc Ho0 Hu Hz Hy Hm. unfold getUtcOffsetMinutes. rewrite Hu, Hz. cbn [bind].
  f_equal. rewrite Hy, Hm.
  assert (Hvz : validTimeZone tz = true).
  { unfold getDateParts, Intl_DateTimeFormat in Hz.
    destruct (validTimeZone tz); [reflexivity|discriminate]. }
  rewrite getDateParts_minutes in Hu, Hz by assumption. cbv zeta in Hu, Hz.
  rewrite Ho0, Z.add_0_r in Hu.
  set (o := zoneOffset tz (M * msPerMinute)) in *.
  destruct (civil_from_days (M / 1440)) as [[yu mu] du] eqn:Hcu.
  destruct (civil_from_days ((M + o) / 1440)) as [[yz mz] dz] eqn:Hcz.
  injection Hu as <-. injection Hz as <-.
  cbn [year month day hour minute] in *. subst yz mz.
  apply days_from_civil_from_days in Hcu, Hcz.
  pose proof (days_from_civil_day yu mu du dz) as Hd.
  pose proof (minutes_split (M + o)). pose proof (minutes_split M).
  pose proof (Z.div_mod (M + o) 1440). pose proof (Z.div_mod M 1440). lia.
Qed.

End ConversionExtras.

(** ** The offset text *)

Lemma two_digits (n : Z) :
  0 <= n <= 99 ->
  String.length (JS.padStart2 (JS.ofNumber n)) = 2%nat /\
  JS.parseInt (JS.padStart2 (JS.ofNumber n)) = n.
Proof. intros H. cases_below n 100%nat; split; reflexivity. Qed.

(** X23. The offset text is a sign, two digits, a colon and two digits; the
    digits read back as the hours and the minutes of the offset, and the
    sign is a minus exactly for a negative offset. *)
Theorem formatUtcOffset_shape (offsetMinutes : Z) :
  -6000 < offsetMinutes < 6000 ->
  exists hh mm : string,
    formatUtcOffset offsetMinutes =
      ((if (0 <=? offsetMinutes)%Z then "+" else "-") ++ hh ++ ":" ++ mm)%string /\
    String.length hh = 2%nat /\ String.length mm = 2%nat /\
    JS.parseInt hh = Z.abs offsetMinutes / 60 /\
    JS.parseInt mm = Z.abs offsetMinutes mod 60.
Proof.
  intros H. unfold formatUtcOffset. cbv zeta.
  destruct (two_digits (Z.abs offsetMinutes / 60)) as [Hl1 Hp1].
  { split; [apply Z.div_pos; lia|]. apply Z.lt_succ_r, Z.div_lt_upper_bound; lia. }
  destruct (two_digits (Z.abs offsetMinutes mod 60)) as [Hl2 Hp2].
  { pose proof (Z.mod_pos_bound (Z.abs offsetMinutes) 60). lia. }
  eexists _, _. split; [reflexivity|]. repeat split; assumption.
Qed.

Section MidMonth.

Variable validTimeZone : string -> bool.
Variable localTimeZone : string.
Variable now : Z.
Variable zoneOffset : string -> Z -> Z.
Variable zoneName : string -> Z -> string.
Variable localeTime : string -> Z -> string.

Local Abbreviation convert :=
  (convertTime validTimeZone localTimeZone now zoneOffset zoneName localeTime).

(** X24. From the 3rd to the 26th of a month (UTC), from 1970 on, converting
    between two zones of constant offset moves the time of day by the
    difference of the offsets: the day offset, the hour and the minute of
    the result make up the source time less the source offset plus the
    target offset, and the offset text is that of the target zone. *)
Theorem convertTime_mid_month (S T : string) (s t h m : Z) (lbl : option string) :
  validTimeZone "UTC" = true -> (forall i, zoneOffset "UTC" i = 0) ->
  0 <= now -> 3 <= getUTCDate now <= 26 ->
  validTimeZone S = true -> validTimeZone T = true ->
  (forall i, zoneOffset S i = s) -> (forall i, zoneOffset T i = t) ->
  -1440 < s < 1440 -> -1440 < t < 1440 ->
  0 <= h <= 23 -> 0 <= m <= 59 ->
  exists r,
    convert h m S T lbl = Ret r /\
    ct_dayOffset r * 1440 + ct_hours r * 60 + ct_minutes r = 60 * h + m - s + t /\
    0 <= ct_hours r <= 23 /\ 0 <= ct_minutes r <= 59 /\
    ct_utcOffset r = formatUtcOffset t.
Proof.
  intros Hutc Hutc0 _ Hday HvS HvT HoS HoT Hs Ht Hh Hm.
  destruct (civil_from_days (now / msPerDay)) as [[y mo] d] eqn:Hc.
  assert (Hd : d = getUTCDate now) by (unfold getUTCDate; rewrite Hc; reflexivity).
  assert (Hnear : forall k, -2 <= k <= 2 ->
                            civil_from_days (todayNumber now + k) = (y, mo, d + k)).
  { intros k Hk. rewrite todayNumber_now. apply civil_from_days_near; [exact Hc|lia|exact Hk]. }
  unfold convertTime. cbv zeta.
  rewrite Date_UTC_today.
  set (X := 60 * h + m).
  assert (HX : 0 <= X < 1440) by (unfold X; lia).
  assert (Hdiv : forall Y lo hi, lo * 1440 <= Y < (hi + 1) * 1440 -> lo <= Y / 1440 <= hi).
  { intros Y lo hi HY. split; [apply Z.div_le_lower_bound|apply Z.lt_succ_r, Z.div_lt_upper_bound]; lia. }
  rewrite (getUtcOffsetMinutes_near validTimeZone now zoneOffset y mo d Hnear Hutc Hutc0
             S s X HvS HoS) by (apply Hdiv; lia).
  cbn [bind].
  rewrite instant_minus_offset.
  rewrite (getUtcOffsetMinutes_near validTimeZone now zoneOffset y mo d Hnear Hutc Hutc0
             T t (X - s) HvT HoT) by (apply Hdiv; lia).
  cbn [bind].
  rewrite (getDateParts_near validTimeZone now zoneOffset y mo d Hnear S s (X - s) HvS HoS)
    by (apply Hdiv; lia).
  rewrite (getDateParts_near validTimeZone now zoneOffset y mo d Hnear T t (X - s) HvT HoT)
    by (apply Hdiv; lia).
  cbn [bind]. unfold getAbbreviation, formatTimeInTz, Intl_DateTimeFormat.
  rewrite HvT. cbn [bind]. eexists. split; [reflexivity|].
  cbn [ct_dayOffset ct_hours ct_minutes ct_utcOffset day hour minute].
  replace (X - s + s) with X by ring.
  rewrite (Z.div_small X 1440) by lia.
  set (Y := X - s + t).
  assert (Hk : -2 <= Y / 1440 <= 2) by (apply Hdiv; unfold Y; lia).
  replace (d + Y / 1440 - (d + 0)) with (Y / 1440) by ring.
  destruct (Z.ltb_spec 15 (Y / 1440)); [lia|].
  destruct (Z.ltb_spec (Y / 1440) (-15)); [lia|].
  pose proof (Z.div_mod Y 1440 ltac:(lia)). pose proof (minutes_split Y).
  pose proof (Z.mod_pos_bound Y 1440 ltac:(lia)). pose proof (Z.mod_pos_bound Y 60 ltac:(lia)).
  split; [lia|]. split; [|split; [lia|reflexivity]].
  split; [apply Z.div_pos; lia|]. apply Z.lt_succ_r, Z.div_lt_upper_bound; lia.
Qed.

End MidMonth.

(** ** Target assembly as a deduplication *)

Lemma firstOccurrences_seen (s1 s2 zones : list jsval) :
  (forall z, z ∈ s1 <-> z ∈ s2) ->
  firstOccurrences s1 zones = firstOccurrences s2 zones.
Proof.
  revert s1 s2. induction zones as [|z zones IH]; intros s1 s2 Heq; [reflexivity|].
  cbn. destruct (decide (z ∈ s1)) as [H1|H1].
  - rewrite decide_True by (apply Heq, H1). apply IH, Heq.
  - rewrite decide_False by (intros H; apply H1, Heq, H). f_equal.
    apply IH. intros x. rewrite !elem_of_cons, Heq. tauto.
Qed.

Lemma firstOccurrences_app (seen xs ys : list jsval) :
  firstOccurrences seen (xs ++ ys) =
  (firstOccurrences seen xs ++ firstOccurrences (seen ++ firstOccurrences seen xs) ys)%list.
Proof.
  revert seen. induction xs as [|x xs IH]; intros seen; cbn.
  - rewrite app_nil_r. reflexivity.
  - destruct (decide (x ∈ seen)); [apply IH|].
    cbn. f_equal. rewrite IH. f_equal. apply firstOccurrences_seen.
    intros z. cbn [app]. rewrite ?elem_of_cons, ?elem_of_app, ?elem_of_cons. tauto.
Qed.

Lemma addAll_firstOccurrences (zones : list jsval) (st : TargetState) :
  seen_targets st ->
  seen_targets (addAll st zones) /\
  targets (addAll st zones) =
  (targets st ++ map unlabelled (firstOccurrences (map ianaId (targets st)) zones))%list.
Proof.
  revert st. unfold addAll.
  induction zones as [|z zones IH]; intros st Hseen; cbn [fold_left firstOccurrences].
  { cbn. rewrite app_nil_r. auto. }
  unfold add at 2 4. destruct (decide (z ∈ seen st)) as [Hin|Hnin].
  - rewrite decide_True by (apply Hseen, Hin). apply IH, Hseen.
  - rewrite decide_False by (intros H; apply Hnin, Hseen, H).
    set (st' := {| seen := {[z]} ∪ seen st;
                   targets := targets st ++ [{| ianaId := z; label := None |}] |}).
    assert (Hseen' : seen_targets st').
    { intros x. subst st'. cbn [seen targets].
      rewrite List.map_app, elem_of_app, elem_of_union, elem_of_singleton, (Hseen x).
      cbn. rewrite list_elem_of_singleton. tauto. }
    destruct (IH st' Hseen') as [Hs Ht]. split; [exact Hs|]. rewrite Ht.
    subst st'. cbn [targets map]. rewrite <- app_assoc. cbn. do 3 f_equal.
    apply firstOccurrences_seen. intros x.
    rewrite List.map_app, elem_of_app, elem_of_cons. cbn.
    rewrite list_elem_of_singleton. tauto.
Qed.

Lemma map_ianaId_unlabelled (zones : list jsval) :
  map ianaId (map unlabelled zones) = zones.
Proof. induction zones as [|z zones IH]; cbn; [reflexivity|]. rewrite IH. reflexivity. Qed.

Lemma split_blank (s : string) : blank s = true -> JS.split "," s = [s].
Proof.
  induction s as [|c s IH]; [reflexivity|]. cbn.
  intros [Hc Hs]%andb_true_iff.
  destruct (Ascii.eqb_spec c ",") as [->|_]; [discriminate Hc|].
  rewrite (IH Hs). reflexivity.
Qed.

Lemma favoriteEntries_blank (favoriteSetting : string) :
  JS.truthy (JS.trim favoriteSetting) = false -> favoriteEntries favoriteSetting = [].
Proof.
  intros H. unfold favoriteEntries.
  assert (Ht : JS.trim favoriteSetting = "") by (destruct (JS.trim favoriteSetting); [reflexivity|discriminate]).
  rewrite split_blank by (apply trim_empty, Ht). cbn. rewrite Ht. reflexivity.
Qed.

Section TargetExtras.

Variable validTimeZone : string -> bool.
Variable localTimeZone : string.

Local Abbreviation resolve := (resolveTimezone validTimeZone).
Local Abbreviation assemble := (getTargetTimezones validTimeZone localTimeZone).

Lemma addFavorites_firstOccurrences (entries : list string) (st : TargetState) :
  seen_targets st ->
  exists st',
    addFavorites validTimeZone st entries = Ret st' /\ seen_targets st' /\
    targets st' =
    (targets st ++ map unlabelled
       (firstOccurrences (map ianaId (targets st))
          (flat_map (zonesOf validTimeZone) (List.filter JS.truthy entries))))%list.
Proof.
  revert st. induction entries as [|entry entries IH]; intros st Hseen.
  { exists st. cbn. rewrite app_nil_r. auto. }
  cbn [addFavorites List.filter]. destruct (JS.truthy entry); cbn [negb]; [|apply IH, Hseen].
  cbn [flat_map]. unfold zonesOf at 1.
  destruct (resolveTimezone_returns validTimeZone entry) as [zones ->]. cbn [bind].
  destruct (addAll_firstOccurrences zones st Hseen) as [Hs Ht].
  destruct (IH _ Hs) as (st' & Hrun & Hs' & Ht'). exists st'.
  split; [exact Hrun|]. split; [exact Hs'|].
  rewrite Ht', Ht, firstOccurrences_app, !List.map_app, map_ianaId_unlabelled, <- app_assoc.
  reflexivity.
Qed.

(** X25. The target list is the local zone, the zones of the explicit target
    and the zones of the favorite entries, in that order, each zone kept at
    its first occurrence; no target carries a label. *)
Theorem getTargetTimezones_firstOccurrences (parsed : ParsedQuery)
    (favoriteSetting : string) :
  (forall k, targetTimezone parsed <> Some (VProto k)) ->
  assemble parsed favoriteSetting =
  Ret (map unlabelled
         (firstOccurrences []
            (VStr localTimeZone
             :: (explicitZones validTimeZone parsed
                 ++ flat_map (zonesOf validTimeZone) (favoriteEntries favoriteSetting))%list))).
Proof.
  intros Hstr. unfold getTargetTimezones. cbv zeta.
  set (st0 := add {| seen := ∅; targets := [] |} (VStr localTimeZone) None).
  assert (H0 : seen_targets st0 /\ targets st0 = [unlabelled (VStr localTimeZone)]).
  { subst st0. unfold add. rewrite decide_False by apply not_elem_of_empty.
    split; [|reflexivity]. intros z. cbn.
    rewrite elem_of_union, elem_of_singleton, elem_of_empty, list_elem_of_singleton. tauto. }
  destruct H0 as [Hs0 Ht0].
  assert (H1 : exists st1,
    (match targetTimezone parsed with
     | Some target =>
         if truthyVal target then
           let! targetResolved := resolveTimezoneVal validTimeZone target in
           match targetResolved with
           | [] => Ret (add st0 target None)
           | _ => Ret (addAll st0 targetResolved)
           end
         else Ret st0
     | None => Ret st0
     end) = Ret st1 /\ seen_targets st1 /\
    targets st1 = (targets st0 ++ map unlabelled
      (firstOccurrences (map ianaId (targets st0)) (explicitZones validTimeZone parsed)))%list).
  { unfold explicitZones.
    destruct (targetTimezone parsed) as [[target|k]|];
      [|exfalso; apply (Hstr k); reflexivity|exists st0; cbn; rewrite app_nil_r; auto].
    cbn [truthyVal resolveTimezoneVal].
    destruct (JS.truthy target); [|exists st0; cbn; rewrite app_nil_r; auto].
    unfold zonesOf. destruct (resolveTimezone_returns validTimeZone target) as [zones ->].
    cbn [bind]. destruct zones as [|z zones].
    - eexists. split; [reflexivity|]. apply (addAll_firstOccurrences [VStr target] st0 Hs0).
    - eexists. split; [reflexivity|]. apply (addAll_firstOccurrences (z :: zones) st0 Hs0). }
  destruct H1 as (st1 & -> & Hs1 & Ht1). cbn [bind].
  assert (H2 : exists st2,
    (if JS.truthy (JS.trim favoriteSetting)
     then addFavorites validTimeZone st1 (map JS.trim (JS.split "," favoriteSetting))
     else Ret st1) = Ret st2 /\
    targets st2 = (targets st1 ++ map unlabelled
      (firstOccurrences (map ianaId (targets st1))
         (flat_map (zonesOf validTimeZone) (favoriteEntries favoriteSetting))))%list).
  { destruct (JS.truthy (JS.trim favoriteSetting)) eqn:Hf.
    - destruct (addFavorites_firstOccurrences
                  (map JS.trim (JS.split "," favoriteSetting)) st1 Hs1)
        as (st2 & Hrun & _ & Ht2).
      exists st2. split; [exact Hrun|exact Ht2].
    - exists st1. split; [reflexivity|]. rewrite (favoriteEntries_blank _ Hf). cbn.
      rewrite app_nil_r. reflexivity. }
  destruct H2 as (st2 & -> & Ht2). cbn [bind]. f_equal.
  rewrite Ht2, Ht1, Ht0. cbn [firstOccurrences].
  rewrite decide_False by apply not_elem_of_nil.
  rewrite firstOccurrences_app, !List.map_app, map_ianaId_unlabelled.
  cbn [map app ianaId unlabelled]. rewrite ?List.map_app. reflexivity.
Qed.



End TargetExtras.

(** ** The subtitle of a result row *)

Lemma split_no_separator (sep : ascii) (s : string) :
  hasChar sep s = false -> JS.split sep s = [s].
Proof.
  induction s as [|c s IH]; [reflexivity|]. cbn.
  intros [Hc Hs]%orb_false_iff. rewrite Hc, (IH Hs). reflexivity.
Qed.

Lemma split_at_separator (sep : ascii) (s t : string) :
  hasChar sep s = false ->
  JS.split sep (s ++ String sep t) = s :: JS.split sep t.
Proof.
  induction s as [|c s IH]; intros H.
  - change ("" ++ String sep t) with (String sep t). cbn. rewrite Ascii.eqb_refl. reflexivity.
  - change (String c s ++ String sep t) with (String c (s ++ String sep t)).
    cbn in H |- *. apply orb_false_iff in H as [Hc Hs].
    rewrite Hc, (IH Hs). reflexivity.
Qed.

Lemma replaceUnderscores_no_underscore (p : string) :
  hasChar "_" (replaceUnderscores p) = false.
Proof.
  induction p as [|c p IH]; [reflexivity|]. cbn.
  fold (replaceUnderscores p). rewrite IH.
  destruct (Ascii.eqb_spec c "_") as [->|Hc]; [reflexivity|].
  apply orb_false_iff. split; [|reflexivity]. apply Ascii.eqb_neq, Hc.
Qed.

Lemma hasChar_app (c : ascii) (s t : string) :
  hasChar c (s ++ t) = hasChar c s || hasChar c t.
Proof.
  induction s as [|d s IH]; [reflexivity|].
  change (String d s ++ t) with (String d (s ++ t)). cbn. rewrite IH, orb_assoc. reflexivity.
Qed.

Lemma join_no_underscore (parts : list string) :
  hasChar "_" (JS.join " / " (map replaceUnderscores parts)) = false.
Proof.
  induction parts as [|p parts IH]; [reflexivity|].
  cbn [map JS.join]. destruct parts as [|q parts].
  - apply replaceUnderscores_no_underscore.
  - cbn [map] in IH |- *. rewrite !hasChar_app, IH, replaceUnderscores_no_underscore.
    reflexivity.
Qed.

(** X27. An identifier without a slash, such as UTC, is shown as the empty
    string. *)
Theorem formatIanaId_no_slash (ianaId : string) :
  hasChar "/" ianaId = false -> formatIanaId ianaId = "".
Proof. intros H. unfold formatIanaId. rewrite (split_no_separator _ _ H). reflexivity. Qed.

(** X28. The part before the first slash is dropped and the parts after it are
    joined by a spaced slash, with no underscore left. *)
Theorem formatIanaId_area (area rest : string) :
  hasChar "/" area = false ->
  formatIanaId (area ++ String "/" rest) =
    JS.join " / " (map replaceUnderscores (JS.split "/" rest)) /\
  hasChar "_" (formatIanaId (area ++ String "/" rest)) = false /\
  (hasChar "/" rest = false ->
   formatIanaId (area ++ String "/" rest) = replaceUnderscores rest).
Proof.
  intros H. unfold formatIanaId. rewrite (split_at_separator _ _ _ H). cbn [tl].
  split; [reflexivity|]. split; [apply join_no_underscore|].
  intros Hr. rewrite (split_no_separator _ _ Hr). reflexivity.
Qed.

Lemma formatIanaId_area_witness :
  formatIanaId "America/New_York" = "New York" /\
  formatIanaId "America/Argentina/Buenos_Aires" = "Argentina / Buenos Aires".
Proof.
  split.
  - destruct (formatIanaId_area "America" "New_York" eq_refl) as (_ & _ & H).
    exact (H eq_refl).
  - destruct (formatIanaId_area "America" "Argentina/Buenos_Aires" eq_refl) as (H & _).
    exact H.
Defined.

(** ** The further statements at sample hosts *)


Lemma resolveTimezone_by_precedence_witness :
  resolveTimezone regionHost "berlin" =
  Ret (map VStr (resolve_by_precedence regionHost "berlin")).
Proof. apply (resolveTimezone_by_precedence regionHost "berlin"); discriminate. Defined.

Lemma resolveTimezone_table_entry_witness :
  CITY_MAP !! "tokyo" = Some "Asia/Tokyo" /\
  resolveTimezone regionHost "tokyo" = Ret [VStr "Asia/Tokyo"].
Proof.
  split; [reflexivity|].
  destruct (resolveTimezone_table_entry regionHost "tokyo" eq_refl eq_refl) as (_ & _ & H).
  apply H. reflexivity.
Defined.

Lemma resolveTimezone_ambiguity_witness :
  resolveTimezone regionHost "IST" =
    Ret [VStr "Asia/Kolkata"; VStr "Asia/Jerusalem"; VStr "Europe/Dublin"] /\
  In (JS.toLowerCase (JS.trim "IST")) ambiguousKeys.
Proof.
  split; [reflexivity|].
  refine (proj2 (resolveTimezone_ambiguity regionHost "IST"
                   [VStr "Asia/Kolkata"; VStr "Asia/Jerusalem"; VStr "Europe/Dublin"]
                   eq_refl) _).
  cbn. lia.
Defined.

Lemma getDisambiguationLabel_candidates_witness :
  exists name,
    TIMEZONE_FULL_NAMES !! "Asia/Jerusalem" = Some name /\ name <> "" /\
    getDisambiguationLabel "Asia/Jerusalem" "IST" = Some (VStr name).
Proof.
  apply (getDisambiguationLabel_candidates "IST"
           ["Asia/Kolkata"; "Asia/Jerusalem"; "Europe/Dublin"] "Asia/Jerusalem");
    [reflexivity|cbn; lia|cbn; auto].
Defined.

Lemma match_TIME_RE_prefix_witness :
  ("7:22pm" ++ JS.sliceFrom (String.length "7:22pm") "7:22pm PST")%string = "7:22pm PST" /\
  "7:22pm" <> "" /\
  0 <= JS.parseInt "7" <= 99 /\
  (forall mm, Some "22" = Some mm -> 0 <= JS.parseInt mm <= 99).
Proof.
  exact (match_TIME_RE_prefix "7:22pm PST"
           {| m0 := "7:22pm"; m1 := "7"; m2 := Some "22"; m3 := Some "pm" |} eq_refl).
Defined.

Lemma search_TO_RE_one_word_witness :
  search_TO_RE "toronto" = None /\ search_TO_RE "TO" = Some 0%nat.
Proof.
  split.
  - exact (search_TO_RE_one_word "toronto" eq_refl).
  - exact (search_TO_RE_one_word "TO" eq_refl).
Defined.

Lemma search_TO_RE_sound_witness :
  exists before t o after,
    "PST to EST" = (before ++ String t (String o after))%string /\
    4%nat = String.length before /\
    JS.toLowerCase (String t (String o "")) = "to" /\
    endsWithWord before = false /\ startsWithWord after = false.
Proof. exact (search_TO_RE_sound "PST to EST" 4 eq_refl). Defined.

Lemma formatTime_match_TIME_RE_witness :
  match_TIME_RE (formatTime 7 5) =
    Some {| m0 := "7:05"; m1 := "7"; m2 := Some "05"; m3 := None |} /\
  JS.parseInt "7" = 7 /\ JS.parseInt "05" = 5.
Proof. apply (formatTime_match_TIME_RE 7 5); lia. Defined.

Lemma parseQuery_12h_CET_witness :
  parseQuery regionHost "12:30am CET" =
    Ret {| timeStr := "12:30am"; hours := 0; minutes := 30;
           sourceTimezone := VStr "Europe/Berlin"; sourceLabel := "CET";
           targetTimezone := None; error := None |} /\
  parseQuery regionHost "12:30pm CET" =
    Ret {| timeStr := "12:30pm"; hours := 12; minutes := 30;
           sourceTimezone := VStr "Europe/Berlin"; sourceLabel := "CET";
           targetTimezone := None; error := None |}.
Proof. apply (parseQuery_12h_CET regionHost 12 30); [reflexivity|reflexivity|lia|lia]. Defined.

Lemma parseQuery_time_only_witness :
  parseQuery regionHost "9:15" =
    Ret (failed "9:15" 9 15 (VStr "") "" missingSourceError) /\
  parseQuery regionHost "9:15 to CET" =
    Ret (failed "9:15" 9 15 (VStr "") "" missingSourceError).
Proof. apply (parseQuery_time_only regionHost 9 15); lia. Defined.

Lemma getDateParts_round_trip_witness :
  getDateParts regionHost fixedOffset january15 "Asia/Kolkata" =
    Ret {| year := 2025; month := 1; day := 15; hour := 17; minute := 30 |} /\
  Date_UTC 2025 0 15 17 30 = january15 + 330 * msPerMinute.
Proof.
  split; [reflexivity|].
  destruct (getDateParts_round_trip regionHost fixedOffset january15 "Asia/Kolkata"
              {| year := 2025; month := 1; day := 15; hour := 17; minute := 30 |})
    as (_ & _ & _ & _ & H); [vm_compute; discriminate|reflexivity|].
  exact H.
Defined.

Lemma convertTime_returns_witness :
  (exists r, convertTime regionHost "Europe/Berlin" january15 fixedOffset noZoneName
               noLocaleTime 7 22 "Asia/Tokyo" "Mars/Olympus" None = Ret r) <->
  regionHost "UTC" = true /\ regionHost "Asia/Tokyo" = true
  /\ regionHost "Mars/Olympus" = true.
Proof.
  apply (convertTime_returns regionHost "Europe/Berlin" january15 fixedOffset noZoneName
           noLocaleTime 7 22 "Asia/Tokyo" "Mars/Olympus" None); lia.
Defined.

Lemma convertTime_fields_witness :
  exists r,
    convertTime regionHost "Europe/Berlin" january15 fixedOffset noZoneName noLocaleTime
                23 30 "Asia/Kolkata" "Pacific/Honolulu" None = Ret r /\
    0 <= ct_hours r <= 23 /\ 0 <= ct_minutes r <= 59 /\ -15 <= ct_dayOffset r <= 15 /\
    ct_ianaId r = "Pacific/Honolulu" /\ ct_label r = None.
Proof.
  eexists. split; [vm_compute; reflexivity|].
  apply (convertTime_fields regionHost "Europe/Berlin" january15 fixedOffset noZoneName
           noLocaleTime 23 30 "Asia/Kolkata" "Pacific/Honolulu" None).
  vm_compute. reflexivity.
Defined.

Lemma getUtcOffsetMinutes_same_month_witness :
  getUtcOffsetMinutes regionHost fixedOffset "Asia/Tokyo" (28949040 * msPerMinute) = Ret 540.
Proof.
  apply (getUtcOffsetMinutes_same_month regionHost fixedOffset "Asia/Tokyo" 28949040
           {| year := 2025; month := 1; day := 15; hour := 12; minute := 0 |}
           {| year := 2025; month := 1; day := 15; hour := 21; minute := 0 |});
    reflexivity.
Defined.

Lemma formatUtcOffset_shape_witness :
  exists hh mm : string,
    formatUtcOffset (-570) = ("-" ++ hh ++ ":" ++ mm)%string /\
    String.length hh = 2%nat /\ String.length mm = 2%nat /\
    JS.parseInt hh = 9 /\ JS.parseInt mm = 30.
Proof. apply (formatUtcOffset_shape (-570)). lia. Defined.

Lemma getTargetTimezones_firstOccurrences_witness :
  getTargetTimezones regionHost "Europe/Berlin"
    {| timeStr := "7"; hours := 7; minutes := 0;
       sourceTimezone := VStr "Europe/Berlin"; sourceLabel := "CET";
       targetTimezone := Some (VStr "Asia/Tokyo"); error := None |}
    "Tokyo, Berlin, nowhere, IST" =
  Ret (map unlabelled
         [VStr "Europe/Berlin"; VStr "Asia/Tokyo"; VStr "Asia/Kolkata";
          VStr "Asia/Jerusalem"; VStr "Europe/Dublin"]).
Proof.
  etransitivity.
  - apply (getTargetTimezones_firstOccurrences regionHost "Europe/Berlin"). discriminate.
  - vm_compute. reflexivity.
Defined.

Lemma convertTime_mid_month_witness :
  exists r,
    convertTime regionHost "Europe/Berlin" january15 fixedOffset noZoneName noLocaleTime
                23 30 "Asia/Kolkata" "Pacific/Honolulu" None = Ret r /\
    ct_dayOffset r * 1440 + ct_hours r * 60 + ct_minutes r = 60 * 23 + 30 - 330 + -600 /\
    0 <= ct_hours r <= 23 /\ 0 <= ct_minutes r <= 59 /\
    ct_utcOffset r = formatUtcOffset (-600).
Proof.
  apply (convertTime_mid_month regionHost "Europe/Berlin" january15 fixedOffset noZoneName
           noLocaleTime "Asia/Kolkata" "Pacific/Honolulu" 330 (-600) 23 30 None);
    try reflexivity; try lia.
  - vm_compute. discriminate.
  - change (getUTCDate january15) with 15. lia.
Defined.

Lemma formatIanaId_no_slash_witness : formatIanaId "UTC" = "".
Proof. exact (formatIanaId_no_slash "UTC" eq_refl). Defined.
